(** * SCION logging utilities ([lib/log.py])

    A shallow embedding of [lib/log.py] and of the part of the Python
    standard library it drives ([logging], [logging.handlers],
    [traceback]), followed by the properties of the three entry points of
    the module: the handler class [_LoggingErrorHandler] with its
    [handleError], [init_logging] and [log_exception].

    Layout:
    - [Text]      : strings and [str.split];
    - [Py]        : exceptions, results, the state-and-error monad;
    - [Platform]  : what is left to the interpreter;
    - [Traceback] : [traceback.format_exc];
    - [Logging], [Handlers], [Root] : the standard library's logging
      machinery, with [handleError] of [lib/log.py] between the first two
      (the handlers dispatch to it);
    - [init_logging] and [log_exception] of [lib/log.py];
    - [Sample]    : an interpreter and a process to run the program on;
    - the vocabulary of the statements, the lemmas, the claims.

    Modelling conventions.  A Python [str] is a [string]; a file holds the
    characters written to it (one character is counted as one byte).  The
    file system and the streams never fail: the only errors are those that
    Python code raises (formatting errors, [TypeError]s, the bare [raise]);
    in particular opening a log file always succeeds.  Keyword arguments
    are bound where [Logger._log] is called: a keyword named like a
    parameter of [Logger.log] itself ([self], [level], [msg]), which Python
    refuses at the call whatever the level, is outside the model.
    Every exception of the model derives from [Exception].  The program is
    sequential: locks are not modelled, and the current thread only
    contributes its name to the records. *)

From Stdlib Require Import ZArith String Ascii List Lia.
From stdpp Require Import base option list strings pretty gmap.

(** ** Text *)

Module Text.

(** The newline character and the one-character string ["\n"]. *)
Definition NL : ascii := "010"%char.
Definition nl : string := String NL "".

(** [s.split(sep)] for a one-character separator: the pieces between the
    separators, in order; never the empty list. *)
Fixpoint split_on (sep : ascii) (s : string) : list string :=
  match s with
  | "" => [""]
  | String c s' =>
      if Ascii.eqb c sep then "" :: split_on sep s'
      else match split_on sep s' with
           | [] => [String c ""]
           | w :: ws => String c w :: ws
           end
  end.

(** [s.split("\n")]. *)
Definition split_nl (s : string) : list string := split_on NL s.

(** [c in s] for a character. *)
Fixpoint has_char (c : ascii) (s : string) : bool :=
  match s with
  | "" => false
  | String a s' => Ascii.eqb a c || has_char c s'
  end.

(** [s.count("\n")]. *)
Fixpoint count_nl (s : string) : nat :=
  match s with
  | "" => 0
  | String a s' => (if Ascii.eqb a NL then 1 else 0) + count_nl s'
  end.

(** ["".join(l)]. *)
Definition join (l : list string) : string := fold_right String.append "" l.

(** [s.find(sub) >= 0]. *)
Definition contains (sub s : string) : bool :=
  match String.index 0 sub s with Some _ => true | None => false end.

End Text.

Import Text.

(** ** Python values, exceptions and the monad of statements *)

Module Py.

(** An exception as the program sees it: the name of its class as a
    traceback prints it and [str(value)].  Every exception of the model is
    an instance of [Exception]. *)
Record Exn := mkExn { exn_type : string; exn_value : string }.

#[global] Instance Exn_eq_dec : EqDecision Exn.
Proof. solve_decision. Defined.

Definition TypeError (v : string) : Exn := mkExn "TypeError" v.
Definition ValueError (v : string) : Exn := mkExn "ValueError" v.
Definition KeyError (v : string) : Exn := mkExn "KeyError" v.
Definition AttributeError (v : string) : Exn := mkExn "AttributeError" v.
Definition RuntimeError (v : string) : Exn := mkExn "RuntimeError" v.

(** The outcome of a statement or of an expression: a value, or an
    exception that propagates. *)
Inductive Res (A : Type) : Type :=
| Ok (a : A)
| Raise (e : Exn).
Arguments Ok {A} a.
Arguments Raise {A} e.

Definition is_ok {A} (r : Res A) : bool :=
  match r with Ok _ => true | Raise _ => false end.

Definition res_map {A B} (f : A -> B) (r : Res A) : Res B :=
  match r with Ok a => Ok (f a) | Raise e => Raise e end.

(** The values a caller passes as formatting arguments. *)
Inductive PyVal :=
| PyStr (s : string)
| PyInt (z : Z).

(** Keyword arguments, in call order. *)
Definition KwArgs : Type := list (string * PyVal).

(** Statements over a state [S]: the result and the state they leave. *)
Definition M (S A : Type) : Type := S -> Res A * S.

Definition ret {S A} (a : A) : M S A := fun s => (Ok a, s).

Definition bind {S A B} (m : M S A) (k : A -> M S B) : M S B :=
  fun s =>
    match m s with
    | (Ok a, s') => k a s'
    | (Raise e, s') => (Raise e, s')
    end.

Definition raise {S A} (e : Exn) : M S A := fun s => (Raise e, s).

Definition gets {S A} (f : S -> A) : M S A := fun s => (Ok (f s), s).

Definition modify {S} (f : S -> S) : M S unit := fun s => (Ok tt, f s).

Definition lift {S A} (r : Res A) : M S A := fun s => (r, s).

(** [for x in l: body(x)]. *)
Fixpoint for_each {S A} (l : list A) (body : A -> M S unit) : M S unit :=
  match l with
  | [] => ret tt
  | x :: l' => bind (body x) (fun _ => for_each l' body)
  end.

(** [if c: body]. *)
Definition when {S} (c : bool) (body : M S unit) : M S unit :=
  if c then body else ret tt.

End Py.

Import Py.

Notation "'do' x <- m ; k" := (bind m (fun x => k))
  (at level 10, x name, m at level 100, k at level 200).

(** ** What the interpreter supplies

    These pieces of CPython are left open; every theorem below holds
    whatever they are.
    - [str_mod msg args] is [msg % args], the printf-style formatting of a
      message by its positional arguments, which raises on arguments that
      do not fit the placeholders.
    - [bind_kwargs kw ei] is what [Logger._log] and [Logger.makeRecord] do
      with the keyword arguments of a logging call ([exc_info], [extra],
      [stack_info]) when the exception being handled is [ei]: they raise
      (an unexpected keyword, a clash in [extra]) or leave the record's
      [exc_text] and [stack_info]; without keyword arguments both are
      absent.
    - [traceback_entries e] are the entries of
      [traceback.format_exception] for [e] before its final line (the
      header and the stack frames, chained exceptions included), each
      without its final newline; [call_stack_report] is what
      [logging.Handler.handleError] prints after its ["Call stack:"]
      line. *)
Class Platform := {
  str_mod : string -> list PyVal -> Res string;
  bind_kwargs : KwArgs -> option Exn -> Res (option string * option string);
  bind_kwargs_nil : forall ei, bind_kwargs [] ei = Ok (None, None);
  traceback_entries : Exn -> list string;
  call_stack_report : string -> list PyVal -> string
}.

(** ** [traceback] *)

Module Traceback.
Section WithPlatform.
Context `{P : Platform}.

(** The final line of a formatted exception: ["Type: value\n"], or
    ["Type\n"] when [str(value)] is empty. *)
Definition format_exception_only (e : Exn) : string :=
  if decide (exn_value e = "") then exn_type e +:+ nl
  else exn_type e +:+ ": " +:+ exn_value e +:+ nl.

(** [traceback.format_exception]: a list of strings, each ending in a
    newline, the exception's own line last. *)
Definition format_exception (e : Exn) : list string :=
  map (fun entry => entry +:+ nl) (traceback_entries e)
  ++ [format_exception_only e].

(** The line [traceback.format_exc()] returns when no exception is being
    handled (CPython 3.5 and later; earlier versions give ["None"]). *)
Definition NO_EXCEPTION : string := "NoneType: None".

(** [traceback.format_exc()] when [sys.exc_info()] is [ei]. *)
Definition format_exc (ei : option Exn) : string :=
  match ei with
  | Some e => join (format_exception e)
  | None => NO_EXCEPTION +:+ nl
  end.

End WithPlatform.
End Traceback.

Import Traceback.

(** ** [logging]: levels, records, formatters, streams and handlers *)

Module Logging.

Definition CRITICAL : Z := 50.
Definition ERROR : Z := 40.
Definition WARNING : Z := 30.
Definition INFO : Z := 20.
Definition DEBUG : Z := 10.
Definition NOTSET : Z := 0.

(** [logging.getLevelName(level)] for an integer level. *)
Definition getLevelName (level : Z) : string :=
  if (level =? CRITICAL)%Z then "CRITICAL"
  else if (level =? ERROR)%Z then "ERROR"
  else if (level =? WARNING)%Z then "WARNING"
  else if (level =? INFO)%Z then "INFO"
  else if (level =? DEBUG)%Z then "DEBUG"
  else if (level =? NOTSET)%Z then "NOTSET"
  else "Level " +:+ pretty level.

(** [logging.BASIC_FORMAT], the format [basicConfig()] falls back on. *)
Definition BASIC_FORMAT : string := "%(levelname)s:%(name)s:%(message)s".

(** A [LogRecord]: the attributes the formats of this program read.
    [created] is the record's creation time as [Formatter.formatTime]
    renders it. *)
Record LogRecord := mkRecord {
  levelno : Z;
  msg : string;
  args : list PyVal;
  exc_text : option string;
  stack_info : option string;
  created : string;
  threadName : string
}.

(** [record.getMessage()]: the message merged with its arguments, and left
    as it is when there are none. *)
Definition getMessage `{P : Platform} (r : LogRecord) : Res string :=
  match args r with
  | [] => Ok (msg r)
  | _ :: _ => str_mod (msg r) (args r)
  end.

(** [record.__dict__] as the formatting operand, once [message] and
    [asctime] are set. *)
Definition record_values (r : LogRecord) (message : string)
    (asctime : option string) (key : string) : option string :=
  if (key =? "message")%string then Some message
  else if (key =? "asctime")%string then asctime
  else if (key =? "levelname")%string then Some (getLevelName (levelno r))
  else if (key =? "levelno")%string then Some (pretty (levelno r))
  else if (key =? "threadName")%string then Some (threadName r)
  else if (key =? "name")%string then Some "root"
  else if (key =? "msg")%string then Some (msg r)
  else None.

(** Where the scan of a format string stands: in literal text, after a
    [%], inside the parentheses of a key, or before the conversion
    character of a key. *)
Inductive Directive :=
| Lit
| Pct
| Key (k : string)
| Conv (k : string).

(** [fmt % values] for a mapping, over the directives logging formats
    are made of: [%(key)s] and [%%]. *)
Fixpoint percent_format (values : string -> option string) (st : Directive)
    (fmt : string) : Res string :=
  match fmt with
  | "" =>
      match st with
      | Lit => Ok ""
      | _ => Raise (ValueError "incomplete format")
      end
  | String c rest =>
      match st with
      | Lit =>
          if Ascii.eqb c "%" then percent_format values Pct rest
          else res_map (String c) (percent_format values Lit rest)
      | Pct =>
          if Ascii.eqb c "%" then
            res_map (String "%"%char) (percent_format values Lit rest)
          else if Ascii.eqb c "(" then percent_format values (Key "") rest
          else Raise (ValueError "unsupported format character")
      | Key k =>
          if Ascii.eqb c ")" then percent_format values (Conv k) rest
          else percent_format values (Key (k +:+ String c "")) rest
      | Conv k =>
          if Ascii.eqb c "s" then
            match values k with
            | Some v => res_map (String.append v) (percent_format values Lit rest)
            | None =>
                Raise (ValueError ("Formatting field not found in record: " +:+ k))
            end
          else Raise (ValueError "unsupported format character")
      end
  end.

(** [PercentStyle.usesTime]. *)
Definition usesTime (fmt : string) : bool := contains "%(asctime)" fmt.

(** [s[-1:] != "\n"]. *)
Fixpoint lacks_final_nl (s : string) : bool :=
  match s with
  | "" => true
  | String c "" => negb (Ascii.eqb c NL)
  | String _ s' => lacks_final_nl s'
  end.

(** [if block: (if s[-1:] != "\n": s = s + "\n"); s = s + block]. *)
Definition append_block (s : string) (block : option string) : string :=
  match block with
  | None => s
  | Some "" => s
  | Some t => (if lacks_final_nl s then s +:+ nl else s) +:+ t
  end.

(** [Formatter(fmt).format(record)]. *)
Definition Formatter_format `{P : Platform} (fmt : string) (r : LogRecord)
    : Res string :=
  match getMessage r with
  | Raise e => Raise e
  | Ok message =>
      let asctime := if usesTime fmt then Some (created r) else None in
      match percent_format (record_values r message asctime) Lit fmt with
      | Raise e => Raise e
      | Ok s => Ok (append_block (append_block s (exc_text r)) (stack_info r))
      end
  end.

(** A text stream: [sys.stderr], or a file opened in text mode with what
    has been written to it and not flushed yet. *)
Inductive Stream :=
| SysStderr
| FileObj (path : string) (buf : string).

(** The handler classes of the program: [logging.StreamHandler] on
    [sys.stderr] (what [basicConfig()] installs by itself) and
    [_LoggingErrorHandler]. *)
Inductive HandlerClass :=
| StreamHandlerClass
| LoggingErrorHandlerClass.

(** A handler object.  The fields from [baseFilename] on are those of
    [RotatingFileHandler] and mean nothing for a plain stream handler. *)
Record Handler := mkHandler {
  h_class : HandlerClass;
  level : Z;
  formatter : option string;
  stream : option Stream;
  baseFilename : string;
  mode : string;
  encoding : option string;
  delay : bool;
  maxBytes : Z;
  backupCount : Z
}.

Definition set_stream (st : option Stream) (h : Handler) : Handler :=
  mkHandler (h_class h) (level h) (formatter h) st (baseFilename h) (mode h)
    (encoding h) (delay h) (maxBytes h) (backupCount h).

Definition setFormatter (fmt : string) (h : Handler) : Handler :=
  mkHandler (h_class h) (level h) (Some fmt) (stream h) (baseFilename h)
    (mode h) (encoding h) (delay h) (maxBytes h) (backupCount h).

(** The process around the logging system: the files (path to content),
    what has been written to [sys.stderr], [sys.exc_info()], the wall
    clock ([clock n] is the formatted time at which the [n]-th record of
    the process is created) and the name of the running thread. *)
Record Env := mkEnv {
  fs : gmap string string;
  stderr : string;
  exc_info : option Exn;
  clock : nat -> string;
  ticks : nat;
  current_thread : string
}.

Definition set_fs (f : gmap string string) (e : Env) : Env :=
  mkEnv f (stderr e) (exc_info e) (clock e) (ticks e) (current_thread e).

Definition set_stderr (s : string) (e : Env) : Env :=
  mkEnv (fs e) s (exc_info e) (clock e) (ticks e) (current_thread e).

Definition set_exc_info (ei : option Exn) (e : Env) : Env :=
  mkEnv (fs e) (stderr e) ei (clock e) (ticks e) (current_thread e).

Definition tick (e : Env) : Env :=
  mkEnv (fs e) (stderr e) (exc_info e) (clock e) (S (ticks e)) (current_thread e).

(** The content of a file, empty when there is none. *)
Definition read_file (p : string) (e : Env) : string := default "" (fs e !! p).

(** A method of a handler runs on the handler ([self]) and the process. *)
Definition Self : Type := Handler * Env.

(** [try: body / except Exception: handler].  Inside the handler the
    exception caught is the one being handled; leaving the handler, by its
    end or by an exception, restores the one handled before. *)
Definition try_except {A} (body handler : M Self A) : M Self A :=
  fun s =>
    match body s with
    | (Ok a, s') => (Ok a, s')
    | (Raise e, (h, env)) =>
        let outer := exc_info env in
        match handler (h, set_exc_info (Some e) env) with
        | (r, (h', env')) => (r, (h', set_exc_info outer env'))
        end
    end.

(** The bare [raise] statement. *)
Definition reraise {A} : M Self A :=
  fun s =>
    match exc_info s.2 with
    | Some e => (Raise e, s)
    | None => (Raise (RuntimeError "No active exception to reraise"), s)
    end.

(** [self.stream.write(text)]. *)
Definition stream_write (text : string) : M Self unit :=
  fun '(h, env) =>
    match stream h with
    | None =>
        (Raise (AttributeError "'NoneType' object has no attribute 'write'"),
         (h, env))
    | Some SysStderr => (Ok tt, (h, set_stderr (stderr env +:+ text) env))
    | Some (FileObj p buf) =>
        (Ok tt, (set_stream (Some (FileObj p (buf +:+ text))) h, env))
    end.

(** [StreamHandler.flush]: [if self.stream: self.stream.flush()]. *)
Definition flush : M Self unit :=
  fun '(h, env) =>
    match stream h with
    | Some (FileObj p buf) =>
        (Ok tt,
         (set_stream (Some (FileObj p "")) h,
          set_fs (<[p := read_file p env +:+ buf]> (fs env)) env))
    | _ => (Ok tt, (h, env))
    end.

(** [FileHandler._open]: [open(self.baseFilename, self.mode, ...)], for
    the modes ["a"] and ["w"]. *)
Definition _open : M Self Stream :=
  fun '(h, env) =>
    let p := baseFilename h in
    let content := if (mode h =? "w")%string then "" else read_file p env in
    (Ok (FileObj p ""), (h, set_fs (<[p := content]> (fs env)) env)).

(** [self.stream = st]. *)
Definition assign_stream (st : option Stream) : M Self unit :=
  modify (fun '(h, env) => (set_stream st h, env)).

(** [traceback.format_exc()] from inside a method. *)
Definition traceback_format_exc `{P : Platform} : M Self string :=
  gets (fun s => format_exc (exc_info s.2)).

End Logging.

Import Logging.

(** ** [lib/log.py]: the handler class *)

(** [LOG_MAX_SIZE], in bytes. *)
Definition LOG_MAX_SIZE : Z := 1 * 1024 * 1024.

(** [_LoggingErrorHandler.handleError]: report the error being handled on
    the handler's own stream, then let it go on. *)
Definition handleError `{P : Platform} (record : LogRecord) : M Self unit :=
  do _ <- stream_write ("Exception in logging module:" +:+ nl);
  do tb <- traceback_format_exc;
  do _ <- for_each (split_nl tb) (fun line => stream_write (line +:+ nl));
  do _ <- flush;
  reraise.

(** ** [logging.handlers]: emitting a record *)

Module Handlers.
Section WithPlatform.
Context `{P : Platform}.

(** [logging.Handler.handleError], the method [_LoggingErrorHandler]
    overrides: a report on [sys.stderr], and the error is dropped. *)
Definition Handler_handleError (record : LogRecord) : M Self unit :=
  fun '(h, env) =>
    let report :=
      "--- Logging error ---" +:+ nl +:+ format_exc (exc_info env)
      +:+ "Call stack:" +:+ nl
      +:+ call_stack_report (msg record) (args record) in
    (Ok tt, (h, set_stderr (stderr env +:+ report) env)).

(** [self.handleError(record)], by the class of [self]. *)
Definition self_handleError (record : LogRecord) : M Self unit :=
  fun s =>
    match h_class s.1 with
    | LoggingErrorHandlerClass => handleError record s
    | StreamHandlerClass => Handler_handleError record s
    end.

(** [Handler.format]: the handler's formatter, or the module's default
    one. *)
Definition Handler_format (record : LogRecord) : M Self string :=
  fun s => (Formatter_format (default "%(message)s" (formatter s.1)) record, s).

(** [StreamHandler.emit]. *)
Definition StreamHandler_emit (record : LogRecord) : M Self unit :=
  try_except
    (do text <- Handler_format record;
     do _ <- stream_write (text +:+ nl);
     flush)
    (self_handleError record).

(** [if self.stream is None: self.stream = self._open()]. *)
Definition ensure_open : M Self unit :=
  do st <- gets (fun s : Self => stream s.1);
  match st with
  | None => do f <- _open; assign_stream (Some f)
  | Some _ => ret tt
  end.

(** [FileHandler.emit] (no handler of the model is ever closed). *)
Definition FileHandler_emit (record : LogRecord) : M Self unit :=
  do _ <- ensure_open;
  StreamHandler_emit record.

(** [self.stream.seek(0, 2); self.stream.tell()]. *)
Definition stream_tell_end : M Self Z :=
  fun '(h, env) =>
    match stream h with
    | None =>
        (Raise (AttributeError "'NoneType' object has no attribute 'seek'"),
         (h, env))
    | Some SysStderr =>
        (Raise (mkExn "io.UnsupportedOperation" "underlying stream is not seekable"),
         (h, env))
    | Some (FileObj p buf) =>
        (Ok (Z.of_nat (String.length (read_file p env +:+ buf))), (h, env))
    end.

(** [RotatingFileHandler.shouldRollover]. *)
Definition shouldRollover (record : LogRecord) : M Self bool :=
  do _ <- ensure_open;
  do limit <- gets (fun s : Self => maxBytes s.1);
  if (limit >? 0)%Z then
    do text <- Handler_format record;
    do pos <- stream_tell_end;
    ret (pos + Z.of_nat (String.length (text +:+ nl)) >=? limit)%Z
  else ret false.

(** ["%s.%d" % (base, i)]. *)
Definition backup_name (base : string) (i : nat) : string :=
  base +:+ "." +:+ pretty i.

(** [if os.path.exists(src): os.rename(src, dst)]. *)
Definition rename_if_exists (src dst : string) (f : gmap string string)
    : gmap string string :=
  match f !! src with
  | Some content => <[dst := content]> (delete src f)
  | None => f
  end.

(** The loop of [doRollover]: for [i] from [n] down to 1, move backup
    [i] to [i + 1], over what is there. *)
Fixpoint shift_backups (base : string) (n : nat) (f : gmap string string)
    : gmap string string :=
  match n with
  | O => f
  | S j =>
      let sfn := backup_name base (S j) in
      let dfn := backup_name base (S (S j)) in
      shift_backups base j
        (match f !! sfn with
         | Some _ => rename_if_exists sfn dfn (delete dfn f)
         | None => f
         end)
  end.

(** [RotatingFileHandler.doRollover]. *)
Definition doRollover : M Self unit :=
  do st <- gets (fun s : Self => stream s.1);
  do _ <- match st with
          | Some _ => do _ <- flush; assign_stream None (* close() flushes *)
          | None => ret tt
          end;
  do count <- gets (fun s : Self => backupCount s.1);
  do _ <- when (count >? 0)%Z
            (modify (fun '(h, env) =>
               let base := baseFilename h in
               let shifted := shift_backups base (Z.to_nat (count - 1)) (fs env) in
               let dfn := base +:+ ".1" in
               (h, set_fs (rename_if_exists base dfn (delete dfn shifted)) env)));
  do late <- gets (fun s : Self => delay s.1);
  when (negb late) (do f <- _open; assign_stream (Some f)).

(** [BaseRotatingHandler.emit]. *)
Definition BaseRotatingHandler_emit (record : LogRecord) : M Self unit :=
  try_except
    (do roll <- shouldRollover record;
     do _ <- when roll doRollover;
     FileHandler_emit record)
    (self_handleError record).

(** [self.emit(record)], by the class of [self]. *)
Definition emit (record : LogRecord) : M Self unit :=
  fun s =>
    match h_class s.1 with
    | LoggingErrorHandlerClass => BaseRotatingHandler_emit record s
    | StreamHandlerClass => StreamHandler_emit record s
    end.

(** [Handler.handle] (the handlers of the model have no filters). *)
Definition Handler_handle (record : LogRecord) : M Self unit := emit record.

(** [StreamHandler()]: on [sys.stderr], level [NOTSET], no formatter. *)
Definition StreamHandler : Handler :=
  mkHandler StreamHandlerClass NOTSET None (Some SysStderr) "" "a" None false 0 0.

(** [RotatingFileHandler.__init__], run for the class [cls]: the mode is
    forced to ["a"] when a size limit is given, and the file is opened
    unless [delay] is set.  Paths are absolute, so [os.path.abspath]
    leaves them as they are. *)
Definition RotatingFileHandler_init (cls : HandlerClass) (filename mode : string)
    (maxBytes backupCount : Z) (encoding : option string) (delay : bool)
    : M Env Handler :=
  fun env =>
    let mode := if (maxBytes >? 0)%Z then "a" else mode in
    let h := mkHandler cls NOTSET None None filename mode encoding delay
               maxBytes backupCount in
    if delay then (Ok h, env)
    else match _open (h, env) with
         | (Ok f, (h', env')) => (Ok (set_stream (Some f) h'), env')
         | (Raise e, (_, env')) => (Raise e, env')
         end.

End WithPlatform.
End Handlers.

Import Handlers.

(** ** [logging]: the root logger and the module-level functions *)

Module Root.
Section WithPlatform.
Context `{P : Platform}.

(** A call of the module-level [logging.log]. *)
Record LogCall := mkCall {
  call_level : Z;
  call_msg : string;
  call_args : list PyVal;
  call_kwargs : KwArgs
}.

(** The logging system and the process: the root logger's level and
    handlers, [logging.disable]'s threshold, the process, and the journal
    of the calls of [logging.log] so far, oldest first.  The journal is an
    observation: nothing reads it. *)
Record World := mkWorld {
  root_level : Z;
  root_handlers : list Handler;
  manager_disable : Z;
  env : Env;
  journal : list LogCall
}.

Definition set_root_level (l : Z) (w : World) : World :=
  mkWorld l (root_handlers w) (manager_disable w) (env w) (journal w).

Definition set_root_handlers (hs : list Handler) (w : World) : World :=
  mkWorld (root_level w) hs (manager_disable w) (env w) (journal w).

Definition set_env (e : Env) (w : World) : World :=
  mkWorld (root_level w) (root_handlers w) (manager_disable w) e (journal w).

Definition note_call (c : LogCall) (w : World) : World :=
  mkWorld (root_level w) (root_handlers w) (manager_disable w) (env w)
    (journal w ++ [c]).

(** A statement of the process, run inside the logging system. *)
Definition on_env {A} (m : M Env A) : M World A :=
  fun w => match m (env w) with (r, e) => (r, set_env e w) end.

(** [Logger.getEffectiveLevel] for the root logger. *)
Definition getEffectiveLevel (w : World) : Z :=
  if (root_level w =? 0)%Z then NOTSET else root_level w.

(** [Logger.isEnabledFor] for the root logger. *)
Definition isEnabledFor (lvl : Z) (w : World) : bool :=
  if (manager_disable w >=? lvl)%Z then false
  else (lvl >=? getEffectiveLevel w)%Z.

(** The loop of [Logger.callHandlers] over the root logger's handlers:
    each handler whose level admits the record handles it; an exception
    ends the loop. *)
Fixpoint call_each (record : LogRecord) (hs : list Handler) (e : Env)
    : Res unit * (list Handler * Env) :=
  match hs with
  | [] => (Ok tt, ([], e))
  | h :: rest =>
      if (levelno record >=? level h)%Z then
        match Handler_handle record (h, e) with
        | (Ok _, (h', e')) =>
            match call_each record rest e' with
            | (r, (rest', e'')) => (r, (h' :: rest', e''))
            end
        | (Raise x, (h', e')) => (Raise x, (h' :: rest, e'))
        end
      else
        match call_each record rest e with
        | (r, (rest', e')) => (r, (h :: rest', e'))
        end
  end.

(** [logging.lastResort]: a stream handler on [sys.stderr] at level
    [WARNING]. *)
Definition lastResort : Handler :=
  mkHandler StreamHandlerClass WARNING None (Some SysStderr) "" "a" None false 0 0.

(** [Logger.callHandlers] for the root logger. *)
Definition callHandlers (record : LogRecord) : M World unit :=
  fun w =>
    match root_handlers w with
    | [] =>
        if (levelno record >=? level lastResort)%Z then
          match Handler_handle record (lastResort, env w) with
          | (r, (_, e)) => (r, set_env e w)
          end
        else (Ok tt, w)
    | hs =>
        match call_each record hs (env w) with
        | (r, (hs', e)) => (r, set_env e (set_root_handlers hs' w))
        end
    end.

(** [Logger._log] and [Logger.handle] for the root logger (it is never
    disabled and has no filters): bind the keyword arguments, create the
    record, pass it to the handlers. *)
Definition _log (lvl : Z) (msg : string) (args : list PyVal) (kwargs : KwArgs)
    : M World unit :=
  fun w =>
    let e := env w in
    match bind_kwargs kwargs (exc_info e) with
    | Raise x => (Raise x, w)
    | Ok (text, stack) =>
        let record :=
          mkRecord lvl msg args text stack (clock e (ticks e)) (current_thread e) in
        callHandlers record (set_env (tick e) w)
    end.

(** [Logger.log] for the root logger. *)
Definition Logger_log (lvl : Z) (msg : string) (args : list PyVal)
    (kwargs : KwArgs) : M World unit :=
  fun w => if isEnabledFor lvl w then _log lvl msg args kwargs w else (Ok tt, w).

(** [logging.basicConfig(level=..., handlers=..., format=...)], each
    keyword optional: nothing when the root logger has handlers;
    otherwise the handlers (a stream handler on [sys.stderr] when none is
    given) get the format unless they have one and are added to the root
    logger, whose level is set when one is given. *)
Definition basicConfig (lvl : option Z) (handlers : option (list Handler))
    (format : option string) : M World unit :=
  fun w =>
    match root_handlers w with
    | _ :: _ => (Ok tt, w)
    | [] =>
        let hs := default [StreamHandler] handlers in
        let fmt := default BASIC_FORMAT format in
        let hs :=
          map (fun h => match formatter h with
                        | None => setFormatter fmt h
                        | Some _ => h
                        end) hs in
        let w := set_root_handlers (root_handlers w ++ hs) w in
        (Ok tt, match lvl with Some l => set_root_level l w | None => w end)
    end.

(** [logging.log(level, msg, *args, **kwargs)]. *)
Definition logging_log (lvl : Z) (msg : string) (args : list PyVal)
    (kwargs : KwArgs) : M World unit :=
  do _ <- modify (note_call (mkCall lvl msg args kwargs));
  do hs <- gets root_handlers;
  do _ <- when (length hs =? 0)%nat (basicConfig None None None);
  Logger_log lvl msg args kwargs.

End WithPlatform.
End Root.

Import Root.

(** ** [lib/log.py]: the two functions *)

Section Log.
Context `{P : Platform}.

(** The class [_LoggingErrorHandler] has no constructor of its own: this
    is [_LoggingErrorHandler(filename, maxBytes=..., encoding=...)], with
    [RotatingFileHandler]'s defaults [mode='a'], [backupCount=0] and
    [delay=False] for what the call leaves out. *)
Definition _LoggingErrorHandler (filename : string) (maxBytes : Z)
    (encoding : string) : M Env Handler :=
  RotatingFileHandler_init LoggingErrorHandlerClass filename "a" maxBytes 0
    (Some encoding) false.

(** [init_logging(log_file, level=logging.DEBUG)]; [None] stands for an
    argument left out. *)
Definition init_logging (log_file : string) (level : option Z) : M World unit :=
  let level := default DEBUG level in
  do handler <- on_env (_LoggingErrorHandler log_file LOG_MAX_SIZE "utf-8");
  basicConfig (Some level) (Some [handler])
    (Some "%(asctime)s [%(levelname)s] (%(threadName)s) %(message)s").

(** [log_exception(msg, *args, level=logging.CRITICAL, **kwargs)]; [None]
    stands for a level left out. *)
Definition log_exception (msg : string) (args : list PyVal) (level : option Z)
    (kwargs : KwArgs) : M World unit :=
  let level := default CRITICAL level in
  do _ <- logging_log level msg args kwargs;
  do tb <- gets (fun w => format_exc (exc_info (env w)));
  for_each (split_nl tb) (fun line => logging_log level line [] []).

End Log.

(** ** An interpreter and a process to run the program on

    CPython on the fragment the examples use: [%s], [%d] and [%%] in
    messages; the keywords [exc_info] and [stack_info], any other keyword
    being unexpected ([extra], which takes a dictionary, is outside the
    fragment); tracebacks of one frame. *)

Module Sample.

Definition str (v : PyVal) : string :=
  match v with PyStr s => s | PyInt z => pretty z end.

(** [msg % args] for a tuple; [pct] says that the last character was an
    unmatched [%]. *)
Fixpoint printf (msg : string) (pct : bool) (args : list PyVal) : Res string :=
  match msg with
  | "" =>
      if pct then Raise (ValueError "incomplete format")
      else match args with
           | [] => Ok ""
           | _ :: _ =>
               Raise (TypeError "not all arguments converted during string formatting")
           end
  | String c rest =>
      if pct then
        if Ascii.eqb c "%" then res_map (String "%"%char) (printf rest false args)
        else if Ascii.eqb c "s" then
          match args with
          | v :: args' => res_map (String.append (str v)) (printf rest false args')
          | [] => Raise (TypeError "not enough arguments for format string")
          end
        else if Ascii.eqb c "d" then
          match args with
          | PyInt z :: args' =>
              res_map (String.append (pretty z)) (printf rest false args')
          | PyStr _ :: _ =>
              Raise (TypeError "%d format: a number is required, not str")
          | [] => Raise (TypeError "not enough arguments for format string")
          end
        else Raise (ValueError "unsupported format character")
      else if Ascii.eqb c "%" then printf rest true args
      else res_map (String c) (printf rest false args)
  end.

Definition truthy (v : PyVal) : bool :=
  match v with
  | PyStr "" => false
  | PyStr _ => true
  | PyInt z => negb (z =? 0)%Z
  end.

Definition dq : string := String "034"%char "".

(** The one frame of the sample tracebacks, on its two lines. *)
Definition frame_top : string :=
  "  File " +:+ dq +:+ "main.py" +:+ dq +:+ ", line 7, in <module>".
Definition frame_code : string := "    risky()".

Definition frames (e : Exn) : list string :=
  [ "Traceback (most recent call last):"; frame_top +:+ nl +:+ frame_code ].

Definition final_line (e : Exn) : string :=
  if decide (exn_value e = "") then exn_type e
  else exn_type e +:+ ": " +:+ exn_value e.

(** The text [Formatter.formatException] gives for [sys.exc_info()]: the
    formatted exception without its final newline. *)
Definition exception_text (ei : option Exn) : string :=
  match ei with
  | Some e => join (map (fun entry => entry +:+ nl) (frames e)) +:+ final_line e
  | None => "NoneType: None"
  end.

Definition stack_text : string :=
  "Stack (most recent call last):" +:+ nl
  +:+ "  File " +:+ dq +:+ "main.py" +:+ dq +:+ ", line 9, in <module>".

Fixpoint kwargs (kw : KwArgs) (ei : option Exn)
    : Res (option string * option string) :=
  match kw with
  | [] => Ok (None, None)
  | (k, v) :: kw' =>
      if (k =? "exc_info")%string then
        res_map (fun r => (if truthy v then Some (exception_text ei) else r.1, r.2))
          (kwargs kw' ei)
      else if (k =? "stack_info")%string then
        res_map (fun r => (r.1, if truthy v then Some stack_text else r.2))
          (kwargs kw' ei)
      else
        Raise (TypeError ("_log() got an unexpected keyword argument '"
                          +:+ k +:+ "'"))
  end.

Definition cpython : Platform := {|
  str_mod msg args := printf msg false args;
  bind_kwargs := kwargs;
  bind_kwargs_nil := fun _ => eq_refl;
  traceback_entries := frames;
  call_stack_report msg args := "Message: " +:+ msg +:+ nl
|}.

(** A process that has just started: no file, nothing on [sys.stderr], no
    exception being handled, the main thread. *)
Definition start_env : Env :=
  mkEnv ∅ "" None (fun n => "2015-06-01 12:00:0" +:+ pretty n +:+ ",000") 0
    "MainThread".

(** The logging system as the [logging] module creates it: the root
    logger at [WARNING] without handlers, nothing disabled. *)
Definition start : World := mkWorld WARNING [] 0 start_env [].

Definition boom : Exn := ValueError "boom".

(** The same process while it handles [boom]. *)
Definition handling (w : World) : World :=
  set_env (set_exc_info (Some boom) (env w)) w.

(** The process after [init_logging("/log")]. *)
Definition configured : World := snd (init_logging "/log" None start).

(** The process before [init_logging], while it handles [boom]. *)
Definition handling_env : Env := set_exc_info (Some boom) start_env.

(** A record logged at [CRITICAL]. *)
Definition record0 : LogRecord :=
  mkRecord CRITICAL "up" [] None None "2015-06-01 12:00:00,000" "MainThread".

(** The text [handleError] writes for [boom]. *)
Definition boom_report : string :=
  "Exception in logging module:" +:+ nl
  +:+ "Traceback (most recent call last):" +:+ nl
  +:+ frame_top +:+ nl
  +:+ frame_code +:+ nl
  +:+ "ValueError: boom" +:+ nl
  +:+ nl.

(** The content of a log file that has reached the size [n]. *)
Fixpoint filler (n : nat) : string :=
  match n with
  | O => ""
  | S n' => String "x"%char (filler n')
  end.

(** The process after [init_logging("/log")] when ["/log"] already holds
    [LOG_MAX_SIZE] characters. *)
Definition full : World :=
  snd (init_logging "/log" None
         (mkWorld WARNING [] 0
            (set_fs {["/log" := filler (Z.to_nat LOG_MAX_SIZE)]} start_env) [])).

End Sample.


(** ** The vocabulary of the statements *)

(** The format [init_logging] fixes. *)
Definition FORMAT : string :=
  "%(asctime)s [%(levelname)s] (%(threadName)s) %(message)s".

(** The handler [init_logging log_file] builds, as it stands between two
    records: opened on [log_file] with nothing left to flush. *)
Definition sink (log_file : string) : Handler :=
  mkHandler LoggingErrorHandlerClass NOTSET (Some FORMAT)
    (Some (FileObj log_file "")) log_file "a" (Some "utf-8") false LOG_MAX_SIZE 0.

(** The logging system before [init_logging]: the root logger has no
    handler. *)
Definition unconfigured (w : World) : Prop := root_handlers w = [].

(** The root logger has one handler, the sink on [log_file]. *)
Definition installed (log_file : string) (w : World) : Prop :=
  root_handlers w = [sink log_file].

(** What precedes the message on a line of the log: the time of the
    [k]-th record, the name of the level, the name of the thread. *)
Definition stamp (e : Env) (k : nat) (lvl : Z) : string :=
  clock e k +:+ " [" +:+ getLevelName lvl +:+ "] (" +:+ current_thread e +:+ ") ".

(** The lines of the log for the messages [lines], logged one after the
    other at level [lvl] from the [k]-th record on. *)
Fixpoint entries (e : Env) (lvl : Z) (k : nat) (lines : list string) : string :=
  match lines with
  | [] => ""
  | line :: rest => stamp e k lvl +:+ line +:+ nl +:+ entries e lvl (S k) rest
  end.

(** What [handleError] writes when [sys.exc_info()] is [ei]: the header,
    then the pieces of the traceback text, a newline after each. *)
Definition report `{P : Platform} (ei : option Exn) : string :=
  "Exception in logging module:" +:+ nl
  +:+ join (map (fun line => line +:+ nl) (split_nl (format_exc ei))).

(** The exception's own line of a traceback, without its newline. *)
Definition exception_line (e : Exn) : string :=
  if decide (exn_value e = "") then exn_type e
  else exn_type e +:+ ": " +:+ exn_value e.

(** The lines of the traceback text, top to bottom. *)
Definition traceback_lines `{P : Platform} (ei : option Exn) : list string :=
  match ei with
  | Some e => flat_map split_nl (traceback_entries e ++ [exception_line e])
  | None => [NO_EXCEPTION]
  end.

(** [w] with [text] appended to the file [log_file]. *)
Definition appended (log_file text : string) (w : World) : World :=
  set_env (set_fs (<[log_file := read_file log_file (env w) +:+ text]> (fs (env w)))
             (env w)) w.

(** [w] one record later. *)
Definition ticked (w : World) : World := set_env (tick (env w)) w.

(** A call of [logging.log] for a line of traceback: no arguments. *)
Definition line_call (lvl : Z) (line : string) : LogCall := mkCall lvl line [] [].

(** The level [log_exception] logs at. *)
Definition level_or_critical (level : option Z) : Z :=
  match level with Some l => l | None => 50%Z end.

(** The handler [logging.log] installs by itself, through
    [basicConfig()], when the root logger has none: a stream handler on
    [sys.stderr] with [BASIC_FORMAT]. *)
Definition console : Handler := setFormatter BASIC_FORMAT StreamHandler.

(** What the console handler puts on [sys.stderr] for a record: its line,
    or the report of [logging.Handler.handleError] when formatting it
    raises. *)
Definition console_text `{P : Platform} (r : LogRecord) : string :=
  match Formatter_format BASIC_FORMAT r with
  | Ok text => text +:+ nl
  | Raise x =>
      "--- Logging error ---" +:+ nl +:+ format_exc (Some x)
      +:+ "Call stack:" +:+ nl +:+ call_stack_report (msg r) (args r)
  end.

(** What a call of [logging.log] without arguments leaves, once the sink
    is installed. *)
Definition plain (path : string) (lvl : Z) (line : string) (w : World) : World :=
  let w0 := note_call (line_call lvl line) w in
  if isEnabledFor lvl w then
    if (lvl >=? NOTSET)%Z then
      appended path (stamp (env w) (ticks (env w)) lvl +:+ line +:+ nl) (ticked w0)
    else ticked w0
  else w0.

(** The lines logged one after the other. *)
Definition plain_all (path : string) (lvl : Z) (lines : list string) (w : World)
    : World :=
  fold_left (fun w line => plain path lvl line w) lines w.

(** What the calls of [logging.log] leave untouched. *)
Record same_setup (w w' : World) : Prop := {
  same_level : root_level w' = root_level w;
  same_handlers : root_handlers w' = root_handlers w;
  same_disable : manager_disable w' = manager_disable w;
  same_stderr : stderr (env w') = stderr (env w);
  same_exc : exc_info (env w') = exc_info (env w);
  same_clock : clock (env w') = clock (env w);
  same_thread : current_thread (env w') = current_thread (env w)
}.

(** * Properties *)

(** ** Strings and [split] *)

Section TextFacts.

Lemma append_nil_l (s : string) : "" +:+ s = s.
Proof. reflexivity. Qed.

Lemma append_cons (c : ascii) (a b : string) : String c a +:+ b = String c (a +:+ b).
Proof. reflexivity. Qed.

Lemma append_nil_r (s : string) : s +:+ "" = s.
Proof. induction s as [|c s IH]; [reflexivity | now rewrite append_cons, IH]. Qed.

Lemma append_assoc (a b c : string) : (a +:+ b) +:+ c = a +:+ (b +:+ c).
Proof. induction a as [|x a IH]; [reflexivity | now rewrite !append_cons, IH]. Qed.

Lemma length_append (a b : string) :
  String.length (a +:+ b) = String.length a + String.length b.
Proof.
  induction a as [|x a IH]; [reflexivity | rewrite append_cons; cbn; now rewrite IH].
Qed.

Lemma split_on_nonempty (sep : ascii) (s : string) : split_on sep s <> [].
Proof.
  induction s as [|c s IH]; cbn; [discriminate|].
  destruct (Ascii.eqb c sep); [discriminate|].
  destruct (split_on sep s); [contradiction | discriminate].
Qed.

(** Splitting around one separator: the pieces of the left part, then
    those of the right part. *)
Lemma split_on_app (sep : ascii) (s t : string) :
  split_on sep (s +:+ String sep t) = split_on sep s ++ split_on sep t.
Proof.
  induction s as [|c s IH]; [rewrite append_nil_l | rewrite append_cons]; cbn.
  - now rewrite Ascii.eqb_refl.
  - destruct (Ascii.eqb c sep); rewrite IH; [reflexivity|].
    pose proof (split_on_nonempty sep s) as Hne.
    destruct (split_on sep s); [contradiction | reflexivity].
Qed.

Lemma join_cons (c : string) (l : list string) : join (c :: l) = c +:+ join l.
Proof. reflexivity. Qed.

(** A text made of newline-terminated chunks splits into the lines of the
    chunks, in order, and one empty string after the last newline. *)
Lemma split_nl_chunks (chunks : list string) :
  split_nl (join (map (fun c => c +:+ nl) chunks))
  = flat_map split_nl chunks ++ [""].
Proof.
  unfold split_nl.
  induction chunks as [|c chunks IH]; [reflexivity|].
  rewrite map_cons, join_cons. unfold nl at 1.
  rewrite append_assoc, append_cons, append_nil_l, split_on_app, IH.
  cbn [flat_map]. now rewrite <- List.app_assoc.
Qed.

Lemma count_nl_app (a b : string) : count_nl (a +:+ b) = count_nl a + count_nl b.
Proof.
  induction a as [|x a IH]; [reflexivity | rewrite append_cons; cbn; rewrite IH; lia].
Qed.

Lemma count_nl_none (s : string) : has_char NL s = false -> count_nl s = 0.
Proof.
  induction s as [|c s IH]; cbn; [reflexivity|].
  destruct (Ascii.eqb c NL); cbn; [discriminate | auto].
Qed.

Lemma has_char_app (c : ascii) (a b : string) :
  has_char c (a +:+ b) = has_char c a || has_char c b.
Proof.
  induction a as [|x a IH]; [reflexivity|].
  rewrite append_cons; cbn. rewrite IH. now rewrite orb_assoc.
Qed.

(** A text without newline is the one piece of its split. *)
Lemma split_nl_line (s : string) : has_char NL s = false -> split_nl s = [s].
Proof.
  unfold split_nl. induction s as [|c s IH]; cbn; [reflexivity|].
  destruct (Ascii.eqb c NL); cbn; [discriminate|].
  intros Hs. now rewrite (IH Hs).
Qed.

End TextFacts.

(** ** The handler *)

Section HandlerFacts.
Context `{P : Platform}.

Local Arguments read_file : simpl never.
Local Arguments Formatter_format : simpl never.

Lemma set_stream_twice a b h : set_stream a (set_stream b h) = set_stream a h.
Proof. reflexivity. Qed.

Lemma set_fs_twice f g e : set_fs f (set_fs g e) = set_fs f e.
Proof. reflexivity. Qed.

Lemma read_file_set_fs p c f e : read_file p (set_fs (<[p := c]> f) e) = c.
Proof. unfold read_file; cbn. now rewrite lookup_insert_eq. Qed.

(** The record as [FORMAT] renders it: stamp, then message, then the
    exception and stack texts if any. *)
Lemma format_FORMAT (r : LogRecord) :
  Formatter_format FORMAT r
  = match getMessage r with
    | Ok m =>
        Ok (append_block
              (append_block
                 (created r +:+ " [" +:+ getLevelName (levelno r) +:+ "] ("
                  +:+ threadName r +:+ ") " +:+ m)
                 (exc_text r))
              (stack_info r))
    | Raise e => Raise e
    end.
Proof.
  unfold Formatter_format. destruct (getMessage r) as [m|e]; [|reflexivity].
  change (percent_format _ Lit FORMAT)
    with (Ok (A := string)
            (created r +:+ " [" +:+ getLevelName (levelno r) +:+ "] ("
             +:+ threadName r +:+ ") " +:+ m +:+ "")).
  now rewrite append_nil_r.
Qed.

(** The loop of [handleError] on an open file: every piece goes to the
    buffer, in order. *)
Lemma write_lines (l : list string) : forall h env p buf,
  stream h = Some (FileObj p buf) ->
  for_each l (fun line => stream_write (line +:+ nl)) (h, env)
  = (Ok tt,
     (set_stream
        (Some (FileObj p (buf +:+ join (map (fun line => line +:+ nl) l)))) h,
      env)).
Proof.
  induction l as [|x l IH]; intros h env p buf Hs.
  - cbn. rewrite append_nil_r. destruct h; cbn in *. now subst.
  - cbn [for_each]. unfold bind. unfold stream_write at 1. rewrite Hs.
    rewrite (IH _ _ p (buf +:+ x +:+ nl)) by reflexivity.
    now rewrite set_stream_twice, map_cons, join_cons, !append_assoc.
Qed.

(** [handleError] on an open file, whatever is being handled. *)
Lemma handleError_file record h env p buf :
  stream h = Some (FileObj p buf) ->
  handleError record (h, env)
  = (match exc_info env with
     | Some e => Raise e
     | None => Raise (RuntimeError "No active exception to reraise")
     end,
     (set_stream (Some (FileObj p "")) h,
      set_fs (<[p := read_file p env +:+ buf +:+ report (exc_info env)]> (fs env))
        env)).
Proof.
  intros Hs. unfold handleError, bind.
  unfold stream_write at 1. rewrite Hs.
  unfold traceback_format_exc, gets. cbn [snd].
  erewrite write_lines by reflexivity.
  unfold flush. cbn [stream set_stream]. rewrite set_stream_twice.
  unfold reraise. cbn [snd]. unfold report.
  rewrite !append_assoc.
  destruct env as [f se ei ck tk th]; cbn. destruct ei; reflexivity.
Qed.

Lemma shouldRollover_sink path e r :
  shouldRollover r (sink path, e)
  = match Formatter_format FORMAT r with
    | Ok text =>
        (Ok (Z.of_nat (String.length (read_file path e))
             + Z.of_nat (String.length (text +:+ nl)) >=? LOG_MAX_SIZE)%Z,
         (sink path, e))
    | Raise x => (Raise x, (sink path, e))
    end.
Proof.
  unfold shouldRollover, bind, ensure_open, bind, gets.
  cbn [fst stream maxBytes sink ret].
  change (LOG_MAX_SIZE >? 0)%Z with true. cbv iota.
  unfold Handler_format. cbn [fst formatter sink].
  change (default "%(message)s" (Some FORMAT)) with FORMAT.
  destruct (Formatter_format FORMAT r) as [text|x]; [|reflexivity].
  unfold stream_tell_end. cbn [stream sink]. now rewrite append_nil_r.
Qed.

(** With no backup to keep, a rollover closes the file and opens it again
    to append: its content stays. *)
Lemma doRollover_sink path e :
  doRollover (sink path, e)
  = (Ok tt, (sink path, set_fs (<[path := read_file path e]> (fs e)) e)).
Proof.
  unfold doRollover, bind, gets, flush, assign_stream, modify, _open, sink.
  simpl.
  rewrite read_file_set_fs, set_fs_twice, insert_insert_eq, append_nil_r.
  reflexivity.
Qed.

Lemma FileHandler_emit_sink path e r text :
  Formatter_format FORMAT r = Ok text ->
  FileHandler_emit r (sink path, e)
  = (Ok tt, (sink path,
             set_fs (<[path := read_file path e +:+ text +:+ nl]> (fs e)) e)).
Proof.
  intros Hf.
  unfold FileHandler_emit, bind, ensure_open, bind, gets, StreamHandler_emit,
    try_except, bind, Handler_format, sink.
  simpl. change (Formatter_format _ r) with (Formatter_format FORMAT r).
  rewrite Hf. reflexivity.
Qed.

Lemma handleError_sink path e r :
  self_handleError r (sink path, e)
  = (match exc_info e with
     | Some x => Raise x
     | None => Raise (RuntimeError "No active exception to reraise")
     end,
     (sink path,
      set_fs (<[path := read_file path e +:+ report (exc_info e)]> (fs e)) e)).
Proof.
  unfold self_handleError. cbn [fst h_class sink].
  rewrite (handleError_file r _ e path "") by reflexivity.
  reflexivity.
Qed.

(** The sink emits a record: its line goes to the file; or its formatting
    raises, and the report goes to the file before the error goes on.
    Either way the sink is left as it was. *)
Lemma emit_sink path e r :
  emit r (sink path, e)
  = match Formatter_format FORMAT r with
    | Ok text =>
        (Ok tt, (sink path,
                 set_fs (<[path := read_file path e +:+ text +:+ nl]> (fs e)) e))
    | Raise x =>
        (Raise x, (sink path,
                   set_fs (<[path := read_file path e +:+ report (Some x)]> (fs e)) e))
    end.
Proof.
  unfold emit. cbn [fst sink h_class].
  unfold BaseRotatingHandler_emit, try_except, bind.
  rewrite shouldRollover_sink.
  destruct (Formatter_format FORMAT r) as [text|x] eqn:Hf.
  - destruct (_ >=? _)%Z; cbn [when].
    + rewrite doRollover_sink, (FileHandler_emit_sink _ _ _ text Hf).
      rewrite read_file_set_fs, set_fs_twice. cbn [fs set_fs].
      now rewrite insert_insert_eq.
    + cbn [ret]. now rewrite (FileHandler_emit_sink _ _ _ text Hf).
  - rewrite handleError_sink. destruct e as [f se ei ck tk th]. reflexivity.
Qed.

Lemma backup_name_fresh (path : string) : path <> path +:+ ".1".
Proof.
  intros Heq. apply (f_equal String.length) in Heq.
  rewrite length_append in Heq. cbn in Heq. lia.
Qed.

(** The same handler told to keep one backup: a rollover moves the content
    of the log to the backup and starts the log anew. *)
Lemma doRollover_one_backup path e :
  let h := mkHandler LoggingErrorHandlerClass NOTSET (Some FORMAT)
             (Some (FileObj path "")) path "a" (Some "utf-8") false LOG_MAX_SIZE 1 in
  exists e',
    doRollover (h, e) = (Ok tt, (h, e'))
    /\ fs e' !! path = Some ""
    /\ fs e' !! (path +:+ ".1") = Some (read_file path e).
Proof.
  intros h. eexists. split.
  - unfold doRollover, bind, gets, flush, assign_stream, modify, _open, h.
    simpl. unfold rename_if_exists. cbn [fs set_fs].
    rewrite lookup_delete_ne
      by (intros Heq; exact (backup_name_fresh path (eq_sym Heq))).
    rewrite lookup_insert_eq. reflexivity.
  - cbn [fs set_fs]. split.
    + rewrite lookup_insert_eq. unfold read_file at 1. cbn [fs set_fs].
      rewrite lookup_insert_ne
        by (intros Heq; exact (backup_name_fresh path (eq_sym Heq))).
      now rewrite lookup_delete_eq.
    + rewrite lookup_insert_ne by apply backup_name_fresh.
      rewrite lookup_insert_eq. now rewrite append_nil_r.
Qed.

End HandlerFacts.

(** ** The root logger *)

Section RootFacts.
Context `{P : Platform}.

(** [init_logging] in a process whose root logger has no handler yet. *)
Lemma init_logging_fresh (log_file : string) (level : option Z) (w : World) :
  root_handlers w = [] ->
  init_logging log_file level w
  = (Ok tt,
     mkWorld (default DEBUG level) [sink log_file] (manager_disable w)
       (set_fs (<[log_file := read_file log_file (env w)]> (fs (env w))) (env w))
       (journal w)).
Proof.
  intros Hw. destruct w as [rl hs md e j]. cbn in Hw. subst hs.
  reflexivity.
Qed.

(** A call of [logging.log] once the sink is installed. *)
Lemma logging_log_installed path lvl msg args kw w :
  installed path w ->
  logging_log lvl msg args kw w
  = let w0 := note_call (mkCall lvl msg args kw) w in
    if isEnabledFor lvl w then
      match bind_kwargs kw (exc_info (env w)) with
      | Raise x => (Raise x, w0)
      | Ok (t, s) =>
          let r := mkRecord lvl msg args t s (clock (env w) (ticks (env w)))
                     (current_thread (env w)) in
          if (lvl >=? NOTSET)%Z then
            match Formatter_format FORMAT r with
            | Ok text => (Ok tt, appended path (text +:+ nl) (ticked w0))
            | Raise x => (Raise x, appended path (report (Some x)) (ticked w0))
            end
          else (Ok tt, ticked w0)
      end
    else (Ok tt, w0).
Proof.
  unfold installed. intros Hw. destruct w as [rl hs md e j]. cbn in Hw. subst hs.
  unfold logging_log, bind, modify, gets, Logger_log, note_call, ticked, appended.
  cbn [root_handlers length Nat.eqb when ret root_level manager_disable env journal].
  change (isEnabledFor lvl (mkWorld rl [sink path] md e (j ++ [mkCall lvl msg args kw])))
    with (isEnabledFor lvl (mkWorld rl [sink path] md e j)).
  destruct (isEnabledFor lvl _); [|reflexivity].
  unfold _log, callHandlers, set_env, set_root_handlers.
  cbn [env root_handlers root_level manager_disable journal].
  destruct (bind_kwargs kw (exc_info e)) as [[t s]|x]; [|reflexivity].
  cbn [call_each levelno level sink].
  destruct (lvl >=? NOTSET)%Z; [|reflexivity].
  unfold Handler_handle. fold (sink path). rewrite emit_sink.
  destruct (Formatter_format FORMAT _) as [text|x]; reflexivity.
Qed.


(** A call without arguments returns: nothing can fail to format. *)
Lemma logging_log_plain path lvl line w :
  installed path w ->
  logging_log lvl line [] [] w = (Ok tt, plain path lvl line w).
Proof.
  intros Hw. rewrite (logging_log_installed path) by exact Hw.
  unfold plain, line_call. cbn zeta.
  destruct (isEnabledFor lvl w); [|reflexivity].
  rewrite bind_kwargs_nil.
  destruct (lvl >=? NOTSET)%Z; [|reflexivity].
  rewrite format_FORMAT. cbn [getMessage args msg append_block exc_text stack_info].
  unfold stamp. cbn [created levelno threadName].
  now rewrite !append_assoc.
Qed.


Lemma same_setup_refl w : same_setup w w.
Proof. now split. Qed.

Lemma same_setup_trans w1 w2 w3 :
  same_setup w1 w2 -> same_setup w2 w3 -> same_setup w1 w3.
Proof.
  intros [a1 a2 a3 a4 a5 a6 a7] [b1 b2 b3 b4 b5 b6 b7].
  split; [rewrite b1 | rewrite b2 | rewrite b3 | rewrite b4 | rewrite b5
         | rewrite b6 | rewrite b7]; assumption.
Qed.

Lemma same_setup_enabled w w' lvl :
  same_setup w w' -> isEnabledFor lvl w' = isEnabledFor lvl w.
Proof.
  intros [a1 a2 a3 a4 a5 a6 a7]. unfold isEnabledFor, getEffectiveLevel.
  now rewrite a1, a3.
Qed.

Lemma same_setup_installed w w' path :
  same_setup w w' -> installed path w -> installed path w'.
Proof.
  intros [a1 a2 a3 a4 a5 a6 a7] Hw. unfold installed in *. now rewrite a2.
Qed.

(** Once the sink is installed, a call of [logging.log] keeps the setup,
    adds itself to the journal, and touches no file but the log. *)
Lemma logging_log_frame path lvl msg args kw w :
  installed path w ->
  let w' := snd (logging_log lvl msg args kw w) in
  same_setup w w'
  /\ journal w' = journal w ++ [mkCall lvl msg args kw]
  /\ (forall q, q <> path -> fs (env w') !! q = fs (env w) !! q).
Proof.
  intros Hw. rewrite (logging_log_installed path) by exact Hw. cbn zeta.
  destruct w as [rl hs md e j].
  destruct (isEnabledFor lvl _); [|repeat split; reflexivity].
  destruct (bind_kwargs kw _) as [[t s]|x]; [|repeat split; reflexivity].
  destruct (lvl >=? NOTSET)%Z; [|repeat split; reflexivity].
  destruct (Formatter_format FORMAT _) as [text|x];
    (split; [split; reflexivity|]); (split; [reflexivity|]);
    intros q Hq; cbn; now rewrite lookup_insert_ne.
Qed.

End RootFacts.

(** ** The loop of [log_exception] *)

Section LoopFacts.
Context `{P : Platform}.

Lemma stamp_same e e' k lvl :
  clock e' = clock e -> current_thread e' = current_thread e ->
  stamp e' k lvl = stamp e k lvl.
Proof. intros Hc Ht. unfold stamp. now rewrite Hc, Ht. Qed.

Lemma entries_same e e' lvl lines : forall k,
  clock e' = clock e -> current_thread e' = current_thread e ->
  entries e' lvl k lines = entries e lvl k lines.
Proof.
  induction lines as [|l lines IH]; intros k Hc Ht; cbn [entries]; [reflexivity|].
  now rewrite IH, (stamp_same e e').
Qed.

Lemma plain_same_setup path lvl line w : same_setup w (plain path lvl line w).
Proof.
  unfold plain. destruct w as [rl hs md e j].
  destruct (isEnabledFor lvl _); [|now split].
  destruct (lvl >=? NOTSET)%Z; now split.
Qed.

Lemma plain_journal path lvl line w :
  journal (plain path lvl line w) = journal w ++ [line_call lvl line].
Proof.
  unfold plain. destruct (isEnabledFor lvl w); [|reflexivity].
  destruct (lvl >=? NOTSET)%Z; reflexivity.
Qed.

Lemma plain_other_files path lvl line w q :
  q <> path -> fs (env (plain path lvl line w)) !! q = fs (env w) !! q.
Proof.
  intros Hq. unfold plain. destruct (isEnabledFor lvl w); [|reflexivity].
  destruct (lvl >=? NOTSET)%Z; [|reflexivity].
  cbn. now rewrite lookup_insert_ne.
Qed.

(** An admitted line goes to the end of the log, under the stamp of its
    record. *)
Lemma plain_written path lvl line w :
  isEnabledFor lvl w = true -> (lvl >=? NOTSET)%Z = true ->
  read_file path (env (plain path lvl line w))
  = read_file path (env w) +:+ stamp (env w) (ticks (env w)) lvl +:+ line +:+ nl
  /\ ticks (env (plain path lvl line w)) = S (ticks (env w)).
Proof.
  intros He Hl. unfold plain. rewrite He, Hl. split; [|reflexivity].
  unfold appended, ticked. cbn [env set_env note_call].
  now rewrite read_file_set_fs.
Qed.

(** A line below the threshold leaves the files as they are. *)
Lemma plain_dropped path lvl line w :
  isEnabledFor lvl w = false -> env (plain path lvl line w) = env w.
Proof. intros He. unfold plain. now rewrite He. Qed.


Lemma plain_all_same_setup path lvl lines : forall w,
  same_setup w (plain_all path lvl lines w).
Proof.
  induction lines as [|l lines IH]; intros w; cbn; [apply same_setup_refl|].
  eapply same_setup_trans; [apply plain_same_setup | apply IH].
Qed.

Lemma plain_all_journal path lvl lines : forall w,
  journal (plain_all path lvl lines w) = journal w ++ map (line_call lvl) lines.
Proof.
  induction lines as [|l lines IH]; intros w; cbn.
  - now rewrite List.app_nil_r.
  - unfold plain_all in IH. rewrite IH, plain_journal.
    now rewrite <- List.app_assoc.
Qed.

Lemma plain_all_other_files path lvl lines q : forall w,
  q <> path -> fs (env (plain_all path lvl lines w)) !! q = fs (env w) !! q.
Proof.
  induction lines as [|l lines IH]; intros w Hq; cbn; [reflexivity|].
  unfold plain_all in IH. rewrite IH by exact Hq. now apply plain_other_files.
Qed.

Lemma plain_all_written path lvl lines : forall w,
  isEnabledFor lvl w = true -> (lvl >=? NOTSET)%Z = true ->
  read_file path (env (plain_all path lvl lines w))
  = read_file path (env w) +:+ entries (env w) lvl (ticks (env w)) lines.
Proof.
  induction lines as [|l lines IH]; intros w He Hl; cbn [plain_all fold_left entries].
  - now rewrite append_nil_r.
  - fold (plain_all path lvl lines (plain path lvl l w)).
    pose proof (plain_same_setup path lvl l w) as Hs.
    destruct (plain_written path lvl l w He Hl) as [Hr Ht].
    rewrite IH; [|now rewrite (same_setup_enabled _ _ _ Hs)|exact Hl].
    rewrite Hr, Ht.
    rewrite (entries_same (env w) _) by (apply Hs).
    now rewrite !append_assoc.
Qed.

Lemma plain_all_dropped path lvl lines : forall w,
  isEnabledFor lvl w = false -> env (plain_all path lvl lines w) = env w.
Proof.
  induction lines as [|l lines IH]; intros w He; cbn; [reflexivity|].
  unfold plain_all in IH.
  rewrite IH; [now apply plain_dropped|].
  now rewrite (same_setup_enabled _ _ _ (plain_same_setup path lvl l w)).
Qed.

(** The loop over the lines returns, having logged every line. *)
Lemma log_lines path lvl lines : forall w,
  installed path w ->
  for_each lines (fun line => logging_log lvl line [] []) w
  = (Ok tt, plain_all path lvl lines w).
Proof.
  induction lines as [|l lines IH]; intros w Hw; cbn [for_each]; [reflexivity|].
  unfold bind. rewrite (logging_log_plain path) by exact Hw.
  rewrite IH; [reflexivity|].
  exact (same_setup_installed _ _ _ (plain_same_setup path lvl l w) Hw).
Qed.

(** [log_exception] once the sink is installed: the call for the message,
    and when it returns, the calls for the pieces of the traceback text. *)
Lemma log_exception_installed path msg args level kw w :
  installed path w ->
  log_exception msg args level kw w
  = match logging_log (level_or_critical level) msg args kw w with
    | (Ok _, w1) =>
        (Ok tt,
         plain_all path (level_or_critical level)
           (split_nl (format_exc (exc_info (env w)))) w1)
    | (Raise x, w1) => (Raise x, w1)
    end.
Proof.
  intros Hw. unfold log_exception, bind, gets.
  change (default CRITICAL level) with (level_or_critical level).
  destruct (logging_log_frame path (level_or_critical level) msg args kw w Hw)
    as (Hs & _ & _).
  destruct (logging_log _ msg args kw w) as [[[]|x] w1]; [|reflexivity].
  cbn [snd] in Hs. rewrite (same_exc _ _ Hs).
  apply log_lines. exact (same_setup_installed _ _ _ Hs Hw).
Qed.

End LoopFacts.

(** ** The traceback text *)

Section TracebackFacts.
Context `{P : Platform}.

(** The traceback text is its lines, each followed by a newline: split on
    newlines it gives the lines and then one empty string. *)
Lemma split_format_exc (ei : option Exn) :
  split_nl (format_exc ei) = traceback_lines ei ++ [""].
Proof.
  destruct ei as [e|]; [|reflexivity].
  unfold format_exc, format_exception, traceback_lines.
  replace (format_exception_only e) with (exception_line e +:+ nl).
  - change [exception_line e +:+ nl]
      with (map (fun c => c +:+ nl) [exception_line e]).
    rewrite <- map_app. apply split_nl_chunks.
  - unfold format_exception_only, exception_line.
    destruct (decide (exn_value e = "")); [reflexivity|].
    now rewrite !append_assoc.
Qed.

Lemma traceback_lines_nonempty (ei : option Exn) : traceback_lines ei <> [].
Proof.
  destruct ei as [e|]; [|discriminate].
  unfold traceback_lines. rewrite flat_map_app. cbn [flat_map].
  rewrite List.app_nil_r. intros Hnil.
  apply List.app_eq_nil in Hnil as [_ Hnil].
  exact (split_on_nonempty _ _ Hnil).
Qed.

Lemma join_app (a b : list string) : join (a ++ b) = join a +:+ join b.
Proof.
  induction a as [|x a IH]; [reflexivity|].
  cbn [app]. now rewrite !join_cons, IH, append_assoc.
Qed.

(** What [handleError] writes, by lines: the header, the lines of the
    traceback, and one more newline. *)
Lemma report_lines (ei : option Exn) :
  report ei
  = "Exception in logging module:" +:+ nl
    +:+ join (map (fun line => line +:+ nl) (traceback_lines ei)) +:+ nl.
Proof.
  unfold report. rewrite split_format_exc, map_app, join_app.
  cbn [map]. rewrite join_cons. cbn [join fold_right].
  now rewrite append_nil_l, append_nil_r.
Qed.

End TracebackFacts.

(** ** [log_exception] as a whole *)

Section RunFacts.
Context `{P : Platform}.

(** [log_exception] once the sink is installed: it raises what its
    logging call for the message raises; when that call returns, it
    returns, after the calls for the pieces of the traceback text. *)
Lemma log_exception_run
    (path : string) (w : World) (msg : string) (args : list PyVal)
    (level : option Z) (kwargs : KwArgs) :
  installed path w ->
  let lvl := level_or_critical level in
  let lines := split_nl (format_exc (exc_info (env w))) in
  match logging_log lvl msg args kwargs w with
  | (Raise x, w1) => log_exception msg args level kwargs w = (Raise x, w1)
  | (Ok _, w1) =>
      exists w',
        log_exception msg args level kwargs w = (Ok tt, w')
        /\ journal w'
           = journal w ++ mkCall lvl msg args kwargs :: map (line_call lvl) lines
  end.
Proof.
  intros Hw lvl lines.
  rewrite (log_exception_installed path) by exact Hw. fold lvl. fold lines.
  pose proof (logging_log_frame path lvl msg args kwargs w Hw) as (_ & Hj & _).
  destruct (logging_log lvl msg args kwargs w) as [[[]|x] w1]; [|reflexivity].
  cbn [snd] in Hj.
  exists (plain_all path lvl lines w1). split; [reflexivity|].
  rewrite plain_all_journal, Hj. now rewrite <- List.app_assoc.
Qed.

(** [log_exception] keeps the setup and touches no file but the log. *)
Lemma log_exception_frame path msg args level kwargs w :
  installed path w ->
  let w' := snd (log_exception msg args level kwargs w) in
  same_setup w w'
  /\ (forall q, q <> path -> fs (env w') !! q = fs (env w) !! q).
Proof.
  intros Hw. rewrite (log_exception_installed path) by exact Hw.
  destruct (logging_log_frame path (level_or_critical level) msg args kwargs w Hw)
    as (Hs & _ & Hq).
  destruct (logging_log _ msg args kwargs w) as [[[]|x] w1]; cbn [snd] in *.
  - split.
    + eapply same_setup_trans; [exact Hs | apply plain_all_same_setup].
    + intros q Hne. rewrite plain_all_other_files by exact Hne. now apply Hq.
  - now split.
Qed.

(** The calls [log_exception] makes, whether it returns or not: the one
    for the message, then calls for the first pieces of the traceback
    text, all of them when it returns. *)
Lemma log_exception_calls path msg args level kwargs w :
  installed path w ->
  let lvl := level_or_critical level in
  let lines := split_nl (format_exc (exc_info (env w))) in
  exists n,
    journal (snd (log_exception msg args level kwargs w))
    = journal w ++ mkCall lvl msg args kwargs :: map (line_call lvl) (take n lines).
Proof.
  intros Hw lvl lines.
  rewrite (log_exception_installed path) by exact Hw. fold lvl. fold lines.
  destruct (logging_log_frame path lvl msg args kwargs w Hw) as (_ & Hj & _).
  destruct (logging_log lvl msg args kwargs w) as [[[]|x] w1]; cbn [snd] in *.
  - exists (length lines). rewrite plain_all_journal, Hj, firstn_all.
    now rewrite <- List.app_assoc.
  - exists 0. now rewrite Hj.
Qed.

End RunFacts.

(** * The claims *)

Section Claims.
Context `{P : Platform}.


(** C9.  When [handleError] runs while no exception is being handled, it
    still writes the header and the traceback text of "no exception" and
    flushes, but its bare [raise] then fails with the [RuntimeError]
    ["No active exception to reraise"]: no error of the record is raised
    again. *)
Theorem handleError_without_active_exception
    (record : LogRecord) (h : Handler) (env : Env) (p buf : string) :
  stream h = Some (FileObj p buf) ->
  exc_info env = None ->
  handleError record (h, env)
  = (Raise (RuntimeError "No active exception to reraise"),
     (set_stream (Some (FileObj p "")) h,
      set_fs
        (<[p := read_file p env +:+ buf
                +:+ "Exception in logging module:" +:+ nl
                +:+ NO_EXCEPTION +:+ nl +:+ nl]> (fs env))
        env)).
Proof.
  intros Hs He. rewrite (handleError_file record h env p buf Hs), He.
  reflexivity.
Qed.

(** C2, amended.  Once the sink is installed, [log_exception] first makes
    the logging call for the message, with the caller's arguments, at the
    given level (50, CRITICAL, when none is given).  When that call
    raises, the error goes on to the caller and nothing else is logged.
    When it returns, the calls for the pieces of the traceback text
    follow, in the order of the text, each at the same level, and
    [log_exception] returns; if the level is admitted, the log file then
    holds the line of the message followed by one line per piece, each
    under the name of that level; if the level is below the threshold the
    files are untouched. *)
Theorem log_exception_message_then_traceback
    (path : string) (w : World) (msg : string) (args : list PyVal)
    (level : option Z) (kwargs : KwArgs) :
  installed path w ->
  let lvl := level_or_critical level in
  let lines := split_nl (format_exc (exc_info (env w))) in
  match logging_log lvl msg args kwargs w with
  | (Raise x, w1) => log_exception msg args level kwargs w = (Raise x, w1)
  | (Ok _, w1) =>
      exists w',
        log_exception msg args level kwargs w = (Ok tt, w')
        /\ journal w'
           = journal w ++ mkCall lvl msg args kwargs :: map (line_call lvl) lines
        /\ (isEnabledFor lvl w = true -> (lvl >=? NOTSET)%Z = true ->
            exists t s text,
              bind_kwargs kwargs (exc_info (env w)) = Ok (t, s)
              /\ Formatter_format FORMAT
                   (mkRecord lvl msg args t s (clock (env w) (ticks (env w)))
                      (current_thread (env w))) = Ok text
              /\ read_file path (env w')
                 = read_file path (env w) +:+ text +:+ nl
                   +:+ entries (env w) lvl (S (ticks (env w))) lines)
        /\ (isEnabledFor lvl w = false -> env w' = env w)
  end.
Proof.
  intros Hw lvl lines.
  rewrite (log_exception_installed path) by exact Hw. fold lvl. fold lines.
  pose proof (logging_log_frame path lvl msg args kwargs w Hw) as (Hs & Hj & _).
  pose proof (logging_log_installed path lvl msg args kwargs w Hw) as Hstep.
  cbn zeta in Hstep.
  destruct (logging_log lvl msg args kwargs w) as [[[]|x] w1] eqn:Hcall;
    [|reflexivity].
  cbn [snd] in Hs, Hj.
  exists (plain_all path lvl lines w1). split; [reflexivity|].
  split; [|split].
  - rewrite plain_all_journal, Hj. now rewrite <- List.app_assoc.
  - intros He Hl. rewrite He, Hl in Hstep.
    destruct (bind_kwargs kwargs (exc_info (env w))) as [[t s]|x]; [|discriminate].
    destruct (Formatter_format FORMAT _) as [text|x] eqn:Hf; [|discriminate].
    exists t, s, text. split; [reflexivity|]. split; [exact Hf|].
    injection Hstep as Hw1. subst w1.
    rewrite plain_all_written; [|now rewrite (same_setup_enabled _ _ _ Hs)|exact Hl].
    unfold appended, ticked at 1 2. cbn [env set_env note_call].
    rewrite read_file_set_fs. cbn [ticks set_fs tick ticked set_env env note_call].
    rewrite (entries_same (env w)) by reflexivity.
    now rewrite !append_assoc.
  - intros He. rewrite He in Hstep. injection Hstep as Hw1. subst w1.
    rewrite plain_all_dropped; [reflexivity|]. exact He.
Qed.

(** C3.  With the sink installed and no exception being handled,
    [log_exception] for a message returns: the missing exception is not a
    failure.  It makes three logging calls, for the message, for
    ["NoneType: None"] (what the traceback capture yields when nothing is
    being handled) and for the empty string; when the level is admitted
    the log file gains these three entries, in this order, and otherwise
    the process is left as it was.  With arguments for the message, the
    outcome is that of the logging call for the message. *)
Theorem log_exception_without_exception
    (path : string) (w : World) (msg : string) (level : option Z) :
  installed path w ->
  exc_info (env w) = None ->
  let lvl := level_or_critical level in
  (exists w',
     log_exception msg [] level [] w = (Ok tt, w')
     /\ journal w'
        = journal w ++ [mkCall lvl msg [] [];
                        line_call lvl "NoneType: None"; line_call lvl ""]
     /\ (isEnabledFor lvl w = true -> (lvl >=? NOTSET)%Z = true ->
         read_file path (env w')
         = read_file path (env w)
           +:+ entries (env w) lvl (ticks (env w)) [msg; "NoneType: None"; ""])
     /\ (isEnabledFor lvl w = false -> env w' = env w))
  /\ (forall args kwargs,
        fst (log_exception msg args level kwargs w)
        = fst (logging_log lvl msg args kwargs w)).
Proof.
  intros Hw He lvl. split.
  - rewrite (log_exception_installed path) by exact Hw. fold lvl.
    rewrite (logging_log_plain path) by exact Hw. rewrite He.
    assert (Hsplit : split_nl (format_exc None) = ["NoneType: None"; ""])
      by reflexivity.
    rewrite Hsplit.
    exists (plain_all path lvl [msg; "NoneType: None"; ""] w).
    split; [reflexivity|]. split; [|split].
    + now rewrite plain_all_journal.
    + intros Hen Hl. now apply plain_all_written.
    + intros Hen. now apply plain_all_dropped.
  - intros args kwargs.
    pose proof (log_exception_run path w msg args level kwargs Hw) as Hmain.
    cbn zeta in Hmain. fold lvl in Hmain.
    destruct (logging_log lvl msg args kwargs w) as [[[]|x] w1].
    + destruct Hmain as (w' & Hrun & _). now rewrite Hrun.
    + now rewrite Hmain.
Qed.

(** C8, amended.  Whatever is being handled, the traceback text ends with
    a newline, so its split is the lines of the traceback followed by one
    empty string.  Hence, once the sink is installed, whenever the logging
    call for the message returns, [log_exception] makes one call per line
    of the traceback and then one more call whose message is the empty
    string (when the call for the message raises, no such call is made);
    and [handleError] writes one more newline after the last line of the
    traceback. *)
Theorem trailing_empty_record (ei : option Exn) :
  split_nl (format_exc ei) = traceback_lines ei ++ [""]
  /\ traceback_lines ei <> []
  /\ (forall path w msg args level kwargs,
        installed path w ->
        exc_info (env w) = ei ->
        let lvl := level_or_critical level in
        match logging_log lvl msg args kwargs w with
        | (Raise x, w1) => log_exception msg args level kwargs w = (Raise x, w1)
        | (Ok _, _) =>
            exists w',
              log_exception msg args level kwargs w = (Ok tt, w')
              /\ journal w'
                 = journal w
                   ++ mkCall lvl msg args kwargs
                      :: map (line_call lvl) (traceback_lines ei)
                   ++ [line_call lvl ""]
        end)
  /\ (forall record h env p buf,
        stream h = Some (FileObj p buf) ->
        exc_info env = ei ->
        exists r,
          handleError record (h, env)
          = (r,
             (set_stream (Some (FileObj p "")) h,
              set_fs
                (<[p := read_file p env +:+ buf
                        +:+ "Exception in logging module:" +:+ nl
                        +:+ join (map (fun line => line +:+ nl) (traceback_lines ei))
                        +:+ nl]> (fs env))
                env))).
Proof.
  split; [apply split_format_exc|].
  split; [apply traceback_lines_nonempty|].
  split.
  - intros path w msg args level kwargs Hw He lvl.
    pose proof (log_exception_run path w msg args level kwargs Hw) as Hmain.
    cbn zeta in Hmain. fold lvl in Hmain. rewrite He in Hmain.
    destruct (logging_log lvl msg args kwargs w) as [[[]|x] w1]; [|exact Hmain].
    destruct Hmain as (w' & Hrun & Hj). exists w'. split; [exact Hrun|].
    rewrite Hj, split_format_exc, map_app. reflexivity.
  - intros record h env p buf Hs He.
    eexists. rewrite (handleError_file record h env p buf Hs), He, report_lines.
    reflexivity.
Qed.

(** C10.  Once the sink is installed, of the calls [log_exception] makes
    only the first carries the caller's positional and keyword arguments:
    every later call is for a piece of the traceback text, at the same
    level, with no argument at all.  The message of a record without
    arguments is its text as it stands, whatever the interpreter's
    formatting does and whatever characters the text holds; so a call for
    a line always returns, and when its level is admitted the line is in
    the log file as it is. *)
Theorem traceback_lines_logged_verbatim
    (path : string) (w : World) (msg : string) (args : list PyVal)
    (level : option Z) (kwargs : KwArgs) :
  installed path w ->
  let lvl := level_or_critical level in
  let lines := split_nl (format_exc (exc_info (env w))) in
  (exists n,
     journal (snd (log_exception msg args level kwargs w))
     = journal w ++ mkCall lvl msg args kwargs :: map (line_call lvl) (take n lines))
  /\ (forall l line, call_args (line_call l line) = []
                     /\ call_kwargs (line_call l line) = [])
  /\ (forall l line t s c th, getMessage (mkRecord l line [] t s c th) = Ok line)
  /\ (forall l line,
        exists w',
          logging_log l line [] [] w = (Ok tt, w')
          /\ (isEnabledFor l w = true -> (l >=? NOTSET)%Z = true ->
              read_file path (env w')
              = read_file path (env w)
                +:+ stamp (env w) (ticks (env w)) l +:+ line +:+ nl)).
Proof.
  intros Hw lvl lines.
  split; [exact (log_exception_calls path msg args level kwargs w Hw)|].
  split; [now split|].
  split; [reflexivity|].
  intros l line. exists (plain path l line w).
  split; [now apply logging_log_plain|].
  intros He Hl. now destruct (plain_written path l line w He Hl).
Qed.

(** C7.  Run while the root logger has no handler, [init_logging] leaves
    it exactly one: the [_LoggingErrorHandler] opened on the given file.
    From then on every call of [logging.log] and of [log_exception],
    whatever it is given and whether it returns or raises, leaves that one
    handler in place, writes nothing to [sys.stderr] and touches no file
    but the log file: every record goes through the one sink. *)
Theorem one_sink_installed_and_kept
    (log_file : string) (level : option Z) (w : World) :
  unconfigured w ->
  exists w1 h,
    init_logging log_file level w = (Ok tt, w1)
    /\ root_handlers w1 = [h]
    /\ h = sink log_file
    /\ h_class h = LoggingErrorHandlerClass
    /\ baseFilename h = log_file
    /\ stream h = Some (FileObj log_file "")
    /\ forall w2,
         root_handlers w2 = [h] ->
         (forall lvl msg args kwargs,
            let w3 := snd (logging_log lvl msg args kwargs w2) in
            root_handlers w3 = [h]
            /\ stderr (env w3) = stderr (env w2)
            /\ forall q, q <> log_file -> fs (env w3) !! q = fs (env w2) !! q)
         /\ (forall msg args lvl kwargs,
              let w3 := snd (log_exception msg args lvl kwargs w2) in
              root_handlers w3 = [h]
              /\ stderr (env w3) = stderr (env w2)
              /\ forall q, q <> log_file -> fs (env w3) !! q = fs (env w2) !! q).
Proof.
  intros Hw. eexists. exists (sink log_file).
  split; [exact (init_logging_fresh log_file level w Hw)|].
  do 5 (split; [reflexivity|]).
  intros w2 Hw2. split.
  - intros lvl msg args kwargs.
    destruct (logging_log_frame log_file lvl msg args kwargs w2 Hw2) as (Hs & _ & Hq).
    split; [exact (same_setup_installed _ _ _ Hs Hw2)|].
    split; [exact (same_stderr _ _ Hs) | exact Hq].
  - intros msg args lvl kwargs.
    destruct (log_exception_frame log_file msg args lvl kwargs w2 Hw2) as (Hs & Hq).
    split; [exact (same_setup_installed _ _ _ Hs Hw2)|].
    split; [exact (same_stderr _ _ Hs) | exact Hq].
Qed.

(** C6.  Run while the root logger has no handler, [init_logging] gives
    its handler the format
    ['%(asctime)s [%(levelname)s] (%(threadName)s) %(message)s'] and sets
    the root logger's level to the one given, or to [DEBUG] (10, the
    lowest of the named levels) when none is given.  Under that format a
    record reads: its time, its level's name in brackets, its thread's
    name in parentheses, its message. *)
Theorem init_logging_format_and_level
    (log_file : string) (level : option Z) (w : World) :
  unconfigured w ->
  exists w1,
    init_logging log_file level w = (Ok tt, w1)
    /\ map formatter (root_handlers w1)
       = [Some "%(asctime)s [%(levelname)s] (%(threadName)s) %(message)s"]
    /\ root_level w1 = match level with Some l => l | None => DEBUG end
    /\ DEBUG = 10%Z
    /\ (forall l, In l [INFO; WARNING; ERROR; CRITICAL] -> (DEBUG < l)%Z)
    /\ forall r m,
         getMessage r = Ok m -> exc_text r = None -> stack_info r = None ->
         Formatter_format
           "%(asctime)s [%(levelname)s] (%(threadName)s) %(message)s" r
         = Ok (created r +:+ " [" +:+ getLevelName (levelno r) +:+ "] ("
               +:+ threadName r +:+ ") " +:+ m).
Proof.
  intros Hw. eexists.
  split; [exact (init_logging_fresh log_file level w Hw)|].
  split; [reflexivity|].
  split; [now destruct level|].
  split; [reflexivity|].
  split.
  - intros l Hl. cbn in Hl. unfold DEBUG, INFO, WARNING, ERROR, CRITICAL in *. lia.
  - intros r m Hm Ht Hs. change (Formatter_format _ r) with (Formatter_format FORMAT r).
    rewrite format_FORMAT, Hm, Ht, Hs. reflexivity.
Qed.

(** C4, amended.  Run while the root logger has no handler and nothing
    is disabled, [init_logging] sets a threshold (the level given, or
    [DEBUG]).  From then on a message logged without arguments at a
    positive severity at or above the threshold adds exactly one entry at
    the end of the log file: the stamp (time, level name in brackets,
    thread name in parentheses), the message, a newline; the entry is one
    line when stamp and message hold no newline.  A record logged at a
    severity strictly below the threshold, whatever its arguments, leaves
    every file as it is. *)
Theorem threshold_admits_and_drops
    (log_file : string) (level : option Z) (w : World) :
  unconfigured w ->
  manager_disable w = 0%Z ->
  let threshold := match level with Some l => l | None => DEBUG end in
  exists w1,
    init_logging log_file level w = (Ok tt, w1)
    /\ forall (s : Z) (m : string),
         ((0 < s)%Z -> (threshold <= s)%Z ->
          let line := stamp (env w1) (ticks (env w1)) s +:+ m in
          exists w2,
            logging_log s m [] [] w1 = (Ok tt, w2)
            /\ read_file log_file (env w2)
               = read_file log_file (env w1) +:+ line +:+ nl
            /\ (has_char NL line = false -> split_nl (line +:+ nl) = [line; ""]))
         /\ ((s < threshold)%Z ->
             forall args kwargs,
             exists w2,
               logging_log s m args kwargs w1 = (Ok tt, w2) /\ env w2 = env w1).
Proof.
  intros Hw Hd threshold. eexists.
  split; [exact (init_logging_fresh log_file level w Hw)|].
  set (w1 := mkWorld _ _ _ _ _).
  assert (Hw1 : installed log_file w1) by reflexivity.
  assert (Hen : forall s, isEnabledFor s w1
                          = if (0 >=? s)%Z then false
                            else (s >=? (if (threshold =? 0)%Z then NOTSET else threshold))%Z).
  { intros s. unfold isEnabledFor, getEffectiveLevel, w1. cbn [manager_disable root_level].
    rewrite Hd. now destruct level. }
  intros s m. split.
  - intros Hpos Hs line. exists (plain log_file s m w1).
    split; [now apply logging_log_plain|].
    assert (He : isEnabledFor s w1 = true).
    { rewrite Hen. destruct (0 >=? s)%Z eqn:H0; [lia|].
      destruct (threshold =? 0)%Z eqn:Ht; unfold NOTSET; lia. }
    assert (Hl : (s >=? NOTSET)%Z = true) by (unfold NOTSET; lia).
    destruct (plain_written log_file s m w1 He Hl) as [Hr _].
    split; [subst line; now rewrite Hr, append_assoc|].
    intros Hline. unfold nl, split_nl.
    rewrite split_on_app. fold (split_nl line). now rewrite (split_nl_line line Hline).
  - intros Hs args kwargs.
    assert (He : isEnabledFor s w1 = false).
    { rewrite Hen. destruct (0 >=? s)%Z eqn:H0; [reflexivity|].
      destruct (threshold =? 0)%Z eqn:Ht; unfold NOTSET; lia. }
    rewrite (logging_log_installed log_file) by exact Hw1. cbn zeta. rewrite He.
    eexists. split; reflexivity.
Qed.

(** C5: the sink's size limit is 1,048,576 bytes and its encoding UTF-8,
    but it keeps no backup ([backupCount] is 0), so the log file is never
    rotated: whatever its size, an admitted record is added at its end and
    no other file appears. *)
Theorem log_file_grows_without_rotation
    (log_file : string) (w : World) (lvl : Z) (m : string) :
  installed log_file w ->
  isEnabledFor lvl w = true ->
  (0 <= lvl)%Z ->
  LOG_MAX_SIZE = 1048576%Z
  /\ maxBytes (sink log_file) = LOG_MAX_SIZE
  /\ encoding (sink log_file) = Some "utf-8"
  /\ backupCount (sink log_file) = 0%Z
  /\ exists w',
       logging_log lvl m [] [] w = (Ok tt, w')
       /\ installed log_file w'
       /\ fs (env w')
          = <[log_file := read_file log_file (env w)
                          +:+ stamp (env w) (ticks (env w)) lvl +:+ m +:+ nl]>
              (fs (env w))
       /\ String.length (read_file log_file (env w'))
          > String.length (read_file log_file (env w)).
Proof.
  intros Hw He Hl. do 4 (split; [reflexivity|]).
  exists (plain log_file lvl m w).
  split; [now apply logging_log_plain|].
  split; [exact (same_setup_installed _ _ _ (plain_same_setup log_file lvl m w) Hw)|].
  assert (Hl' : (lvl >=? NOTSET)%Z = true) by (unfold NOTSET; lia).
  destruct (plain_written log_file lvl m w He Hl') as [Hr _].
  split.
  - unfold plain. rewrite He, Hl'. unfold appended, ticked.
    cbn [env set_env note_call fs set_fs tick]. reflexivity.
  - rewrite Hr, !length_append. unfold nl. cbn [String.length]. lia.
Qed.

(** X1.  The installed sink emitting a record: when the record formats,
    its line goes to the end of the log file; when formatting it raises
    [x], [handleError] puts its report of [x] at the end of the log file
    and [x] is raised out of [emit].  Either way the handler is left as it
    was. *)
Theorem sink_emits_or_reports (path : string) (e : Env) (r : LogRecord) :
  emit r (sink path, e)
  = match Formatter_format FORMAT r with
    | Ok text =>
        (Ok tt,
         (sink path, set_fs (<[path := read_file path e +:+ text +:+ nl]> (fs e)) e))
    | Raise x =>
        (Raise x,
         (sink path,
          set_fs
            (<[path := read_file path e
                       +:+ "Exception in logging module:" +:+ nl
                       +:+ join (map (fun line => line +:+ nl)
                                   (split_nl (format_exc (Some x))))]> (fs e))
            e))
    end.
Proof. exact (emit_sink path e r). Qed.

(** X2.  [init_logging] run when the root logger already has a handler
    changes neither the handlers nor the level: it only opens (and so
    creates, if need be) the file of the handler it builds and drops. *)
Theorem init_logging_again_changes_nothing
    (log_file : string) (level : option Z) (w : World) :
  root_handlers w <> [] ->
  exists w',
    init_logging log_file level w = (Ok tt, w')
    /\ root_handlers w' = root_handlers w
    /\ root_level w' = root_level w
    /\ fs (env w') = <[log_file := read_file log_file (env w)]> (fs (env w)).
Proof.
  intros Hw. destruct w as [rl hs md e j]. cbn in Hw.
  destruct hs as [|h hs]; [contradiction|].
  eexists. split; [reflexivity|]. now repeat split.
Qed.

End Claims.

(** * Further properties *)

(** ** The console handler *)

Section ConsoleFacts.
Context `{P : Platform}.

Local Arguments Formatter_format : simpl never.

(** The console handler never raises and touches nothing but
    [sys.stderr]. *)
Lemma emit_console e r :
  emit r (console, e)
  = (Ok tt, (console, set_stderr (stderr e +:+ console_text r) e)).
Proof.
  unfold emit, console_text. change (h_class (console, e).1) with StreamHandlerClass.
  cbv iota.
  unfold StreamHandler_emit, try_except, bind, Handler_format.
  change (default "%(message)s" (formatter (console, e).1)) with BASIC_FORMAT.
  destruct (Formatter_format BASIC_FORMAT r) as [text|x].
  - reflexivity.
  - unfold self_handleError, Handler_handleError.
    change (h_class (console, set_exc_info (Some x) e).1) with StreamHandlerClass.
    cbv iota. destruct e as [f se ei ck tk th]. reflexivity.
Qed.

(** A call of [logging.log] when the console handler is the one handler. *)
Lemma logging_log_console lvl msg args kw w :
  root_handlers w = [console] ->
  logging_log lvl msg args kw w
  = let w0 := note_call (mkCall lvl msg args kw) w in
    if isEnabledFor lvl w then
      match bind_kwargs kw (exc_info (env w)) with
      | Raise x => (Raise x, w0)
      | Ok (t, s) =>
          let r := mkRecord lvl msg args t s (clock (env w) (ticks (env w)))
                     (current_thread (env w)) in
          if (lvl >=? NOTSET)%Z then
            (Ok tt,
             set_env (set_stderr (stderr (env w) +:+ console_text r) (tick (env w)))
               w0)
          else (Ok tt, ticked w0)
      end
    else (Ok tt, w0).
Proof.
  intros Hw. destruct w as [rl hs md e j]. cbn in Hw. subst hs.
  unfold logging_log, bind, modify, gets, Logger_log, note_call, ticked.
  cbn [root_handlers length Nat.eqb when ret root_level manager_disable env journal
       console setFormatter StreamHandler].
  fold StreamHandler. fold (setFormatter BASIC_FORMAT StreamHandler). fold console.
  change (isEnabledFor lvl (mkWorld rl [console] md e (j ++ [mkCall lvl msg args kw])))
    with (isEnabledFor lvl (mkWorld rl [console] md e j)).
  destruct (isEnabledFor lvl _); [|reflexivity].
  unfold _log, callHandlers, set_env, set_root_handlers.
  cbn [env root_handlers root_level manager_disable journal].
  destruct (bind_kwargs kw (exc_info e)) as [[t s]|x]; [|reflexivity].
  cbn [call_each levelno].
  change (level console) with NOTSET.
  destruct (lvl >=? NOTSET)%Z; [|reflexivity].
  unfold Handler_handle. rewrite emit_console.
  destruct e as [f se ei ck tk th]. reflexivity.
Qed.

(** When the root logger has no handler, [logging.log] first installs the
    console handler. *)
Lemma logging_log_unconfigured lvl msg args kw w :
  root_handlers w = [] ->
  logging_log lvl msg args kw w
  = logging_log lvl msg args kw (set_root_handlers [console] w).
Proof.
  intros Hw. destruct w as [rl hs md e j]. cbn in Hw. subst hs. reflexivity.
Qed.

(** What a call of [logging.log] keeps when the console handler is the one
    handler, and when it can raise. *)
Lemma logging_log_console_frame lvl msg args kw w :
  root_handlers w = [console] ->
  let r := logging_log lvl msg args kw w in
  root_handlers (snd r) = [console]
  /\ root_level (snd r) = root_level w
  /\ fs (env (snd r)) = fs (env w)
  /\ exc_info (env (snd r)) = exc_info (env w)
  /\ (kw = [] -> fst r = Ok tt).
Proof.
  intros Hw. cbn zeta. rewrite logging_log_console by exact Hw. cbn zeta.
  destruct w as [rl hs md e j]. cbn in Hw. subst hs.
  destruct (isEnabledFor lvl _); [|now repeat split].
  destruct (bind_kwargs kw _) as [[t s]|x] eqn:Hb.
  - destruct (lvl >=? NOTSET)%Z; now repeat split.
  - repeat split. intros ->. cbn [env] in Hb. rewrite bind_kwargs_nil in Hb.
    discriminate Hb.
Qed.

(** The loop of [log_exception] when the console handler is the one
    handler. *)
Lemma log_lines_console lvl lines : forall w,
  root_handlers w = [console] ->
  let r := for_each lines (fun line => logging_log lvl line [] []) w in
  fst r = Ok tt
  /\ root_handlers (snd r) = [console]
  /\ root_level (snd r) = root_level w
  /\ fs (env (snd r)) = fs (env w).
Proof.
  induction lines as [|l lines IH]; intros w Hw; cbn zeta; cbn [for_each].
  - now repeat split.
  - unfold bind.
    destruct (logging_log_console_frame lvl l [] [] w Hw) as (Hh & Hl & Hf & _ & Hok).
    specialize (Hok eq_refl).
    destruct (logging_log lvl l [] [] w) as [[[]|x] w1]; cbn [fst snd] in *;
      [|discriminate Hok].
    destruct (IH w1 Hh) as (Ho & Hh' & Hl' & Hf').
    repeat split; [exact Ho | exact Hh' | congruence | congruence].
Qed.

End ConsoleFacts.

(** ** More on [init_logging] and [log_exception] *)

Section Further.
Context `{P : Platform}.

(** A call of [logging.log] only adds to the log file. *)
Lemma logging_log_grows path lvl msg args kw w :
  installed path w ->
  exists suffix,
    read_file path (env (snd (logging_log lvl msg args kw w)))
    = read_file path (env w) +:+ suffix.
Proof.
  intros Hw. rewrite (logging_log_installed path) by exact Hw. cbn zeta.
  destruct (isEnabledFor lvl w); [|exists ""; now rewrite append_nil_r].
  destruct (bind_kwargs kw _) as [[t s]|x]; [|exists ""; now rewrite append_nil_r].
  destruct (lvl >=? NOTSET)%Z; [|exists ""; now rewrite append_nil_r].
  destruct (Formatter_format FORMAT _) as [text|x]; eexists;
    unfold appended, ticked; cbn [env set_env note_call snd];
    rewrite read_file_set_fs; reflexivity.
Qed.

Lemma plain_all_grows path lvl lines : forall w,
  exists suffix,
    read_file path (env (plain_all path lvl lines w))
    = read_file path (env w) +:+ suffix.
Proof.
  induction lines as [|l lines IH]; intros w; cbn [plain_all fold_left].
  - exists "". now rewrite append_nil_r.
  - fold (plain_all path lvl lines (plain path lvl l w)).
    destruct (IH (plain path lvl l w)) as (s2 & Hs2). rewrite Hs2.
    unfold plain. destruct (isEnabledFor lvl w); [|now exists s2].
    destruct (lvl >=? NOTSET)%Z; [|now exists s2].
    unfold appended, ticked. cbn [env set_env note_call].
    rewrite read_file_set_fs. eexists. rewrite append_assoc. reflexivity.
Qed.

(** X3.  [init_logging] never truncates: when it returns, the log file
    exists with the content it had before (empty if it was not there), no
    other file has changed and nothing has been written to [sys.stderr],
    whether or not the root logger already had handlers. *)
Theorem init_logging_keeps_log_content
    (log_file : string) (level : option Z) (w w' : World) :
  init_logging log_file level w = (Ok tt, w') ->
  fs (env w') !! log_file = Some (read_file log_file (env w))
  /\ (forall q, q <> log_file -> fs (env w') !! q = fs (env w) !! q)
  /\ stderr (env w') = stderr (env w).
Proof.
  intros Hrun.
  assert (Henv : env w' = set_fs (<[log_file := read_file log_file (env w)]>
                                    (fs (env w))) (env w)).
  { replace w' with (snd (init_logging log_file level w)) by now rewrite Hrun.
    destruct w as [rl hs md e j]. destruct hs; reflexivity. }
  rewrite Henv. cbn [fs set_fs stderr env].
  split; [now rewrite lookup_insert_eq|].
  split; [|reflexivity].
  intros q Hq. now rewrite lookup_insert_ne.
Qed.

(** X4.  Once the sink is installed, [log_exception] called without
    keyword arguments at a level the root logger does not admit returns
    whatever its positional arguments are (nothing is formatted, so
    arguments that do not fit the message cannot raise), leaves the
    process as it was, and still makes all its logging calls. *)
Theorem log_exception_below_threshold
    (path : string) (w : World) (msg : string) (args : list PyVal)
    (level : option Z) :
  installed path w ->
  isEnabledFor (level_or_critical level) w = false ->
  exists w',
    log_exception msg args level [] w = (Ok tt, w')
    /\ env w' = env w
    /\ journal w'
       = journal w
         ++ mkCall (level_or_critical level) msg args []
            :: map (line_call (level_or_critical level))
                 (split_nl (format_exc (exc_info (env w)))).
Proof.
  intros Hw He.
  rewrite (log_exception_installed path) by exact Hw.
  rewrite (logging_log_installed path) by exact Hw. cbn zeta. rewrite He.
  eexists. split; [reflexivity|]. split.
  - rewrite plain_all_dropped; [reflexivity | exact He].
  - rewrite plain_all_journal. cbn [journal note_call].
    now rewrite <- List.app_assoc.
Qed.

(** X5.  Once the sink is installed, [log_exception], whether it returns
    or raises, leaves [sys.exc_info()] as it was (the caller's exception
    is still the one being handled, also after the sink has reported an
    error of its own), and changes neither the root logger's level nor
    what [logging.disable] set. *)
Theorem log_exception_keeps_exception_and_level
    (path : string) (w : World) (msg : string) (args : list PyVal)
    (level : option Z) (kwargs : KwArgs) :
  installed path w ->
  let w' := snd (log_exception msg args level kwargs w) in
  exc_info (env w') = exc_info (env w)
  /\ root_level w' = root_level w
  /\ manager_disable w' = manager_disable w
  /\ forall lvl, isEnabledFor lvl w' = isEnabledFor lvl w.
Proof.
  intros Hw.
  destruct (log_exception_frame path msg args level kwargs w Hw) as (Hs & _).
  cbn zeta. split; [exact (same_exc _ _ Hs)|].
  split; [exact (same_level _ _ Hs)|].
  split; [exact (same_disable _ _ Hs)|].
  intros lvl. exact (same_setup_enabled _ _ lvl Hs).
Qed.

(** X6.  Once the sink is installed, the log file only grows: after
    [log_exception], whether it returns or raises and whatever the size of
    the file, the file holds what it held before followed by what was
    added. *)
Theorem log_exception_only_appends
    (path : string) (w : World) (msg : string) (args : list PyVal)
    (level : option Z) (kwargs : KwArgs) :
  installed path w ->
  exists suffix,
    read_file path (env (snd (log_exception msg args level kwargs w)))
    = read_file path (env w) +:+ suffix.
Proof.
  intros Hw. rewrite (log_exception_installed path) by exact Hw.
  destruct (logging_log_grows path (level_or_critical level) msg args kwargs w Hw)
    as (s1 & Hs1).
  destruct (logging_log _ msg args kwargs w) as [[[]|x] w1]; cbn [snd] in *.
  - destruct (plain_all_grows path (level_or_critical level)
                (split_nl (format_exc (exc_info (env w)))) w1) as (s2 & Hs2).
    exists (s1 +:+ s2). now rewrite Hs2, Hs1, append_assoc.
  - now exists s1.
Qed.

(** X7.  [log_exception] called before [init_logging], on a root logger
    without handlers, makes [logging.log] install its console handler: the
    records go to [sys.stderr], no file is touched, the root level stays,
    and without keyword arguments the call returns even if the arguments
    do not fit the message.  A later [init_logging] then finds a handler
    in place: it installs no sink and sets no level. *)
Theorem log_exception_before_init_logging
    (w : World) (msg : string) (args : list PyVal) (level : option Z)
    (kwargs : KwArgs) :
  unconfigured w ->
  let w1 := snd (log_exception msg args level kwargs w) in
  root_handlers w1 = [console]
  /\ fs (env w1) = fs (env w)
  /\ root_level w1 = root_level w
  /\ (kwargs = [] -> fst (log_exception msg args level kwargs w) = Ok tt)
  /\ forall log_file lvl,
       exists w2,
         init_logging log_file lvl w1 = (Ok tt, w2)
         /\ root_handlers w2 = [console]
         /\ root_level w2 = root_level w.
Proof.
  intros Hw. cbn zeta.
  assert (Hmain :
    let r := log_exception msg args level kwargs w in
    root_handlers (snd r) = [console]
    /\ fs (env (snd r)) = fs (env w)
    /\ root_level (snd r) = root_level w
    /\ (kwargs = [] -> fst r = Ok tt)).
  { cbn zeta. unfold log_exception, bind, gets.
    rewrite logging_log_unconfigured by exact Hw.
    set (w0 := set_root_handlers [console] w).
    assert (Hw0 : root_handlers w0 = [console]) by reflexivity.
    assert (Hfs0 : fs (env w0) = fs (env w)) by reflexivity.
    assert (Hl0 : root_level w0 = root_level w) by reflexivity.
    destruct (logging_log_console_frame (default CRITICAL level) msg args kwargs w0 Hw0)
      as (Hh & Hl & Hf & _ & Hok).
    destruct (logging_log _ msg args kwargs w0) as [[[]|x] w1]; cbn [fst snd] in *.
    - destruct (log_lines_console (default CRITICAL level)
                  (split_nl (format_exc (exc_info (env w1)))) w1 Hh)
        as (Ho & Hh' & Hl' & Hf').
      repeat split; [exact Hh' | congruence | congruence | intros _; exact Ho].
    - repeat split; [exact Hh | congruence | congruence | exact Hok]. }
  cbn zeta in Hmain. destruct Hmain as (Hh & Hf & Hl & Hok).
  split; [exact Hh|]. split; [exact Hf|]. split; [exact Hl|]. split; [exact Hok|].
  intros log_file lvl.
  destruct (snd (log_exception msg args level kwargs w)) as [rl hs md e j].
  cbn in Hh, Hl. subst hs. eexists. split; [reflexivity|].
  split; [reflexivity | exact Hl].
Qed.

End Further.


(** * The claims on a running process *)

Module Run.
Import Sample.


Lemma handleError_without_active_exception_witness :
  stream (sink "/log") = Some (FileObj "/log" "")
  /\ exc_info start_env = None
  /\ fst (handleError (P := cpython) record0 (sink "/log", start_env))
     = Raise (RuntimeError "No active exception to reraise")
  /\ fs (snd (snd (handleError (P := cpython) record0 (sink "/log", start_env))))
       !! "/log"
     = Some ("Exception in logging module:" +:+ nl
             +:+ "NoneType: None" +:+ nl +:+ nl).
Proof.
  split; [reflexivity|]. split; [reflexivity|].
  rewrite (handleError_without_active_exception (P := cpython) record0 (sink "/log")
             start_env "/log" "" eq_refl eq_refl).
  split; [reflexivity | vm_compute; reflexivity].
Defined.

(** [log_exception("failed %s", "x", level=logging.ERROR)] while [boom]
    is handled. *)
Lemma log_exception_message_then_traceback_witness :
  installed "/log" (handling configured)
  /\ exists w',
       log_exception (P := cpython) "failed %s" [PyStr "x"] (Some ERROR) []
         (handling configured) = (Ok tt, w')
       /\ journal w'
          = mkCall ERROR "failed %s" [PyStr "x"] []
            :: map (line_call ERROR)
                 ["Traceback (most recent call last):"; frame_top; frame_code;
                  "ValueError: boom"; ""]
       /\ fs (env w') !! "/log"
          = Some ("2015-06-01 12:00:00,000 [ERROR] (MainThread) failed x" +:+ nl
                  +:+ "2015-06-01 12:00:01,000 [ERROR] (MainThread) "
                  +:+ "Traceback (most recent call last):" +:+ nl
                  +:+ "2015-06-01 12:00:02,000 [ERROR] (MainThread) " +:+ frame_top +:+ nl
                  +:+ "2015-06-01 12:00:03,000 [ERROR] (MainThread) " +:+ frame_code +:+ nl
                  +:+ "2015-06-01 12:00:04,000 [ERROR] (MainThread) ValueError: boom" +:+ nl
                  +:+ "2015-06-01 12:00:05,000 [ERROR] (MainThread) " +:+ nl).
Proof.
  split; [reflexivity|].
  pose proof (log_exception_message_then_traceback (P := cpython) "/log"
                (handling configured) "failed %s" [PyStr "x"] (Some ERROR) []
                eq_refl) as H.
  cbv zeta in H. revert H.
  destruct (logging_log (P := cpython) _ _ _ _ _) as [[[]|x] w1] eqn:E; intros H.
  - destruct H as (w' & Hrun & _). exists w'. split; [exact Hrun|].
    vm_compute in Hrun. injection Hrun as Hw'. subst w'.
    split; vm_compute; reflexivity.
  - vm_compute in E. discriminate E.
Defined.

(** [log_exception("%d", "x")] while [boom] is handled: the argument does
    not fit the placeholder, the sink's [handleError] reports the
    [TypeError] in the log file (which starts with its header, not with a
    record) and raises it again, and none of the five pieces of the
    traceback of [boom] is logged. *)
Lemma log_exception_message_then_traceback_counterexample :
  installed "/log" (handling configured)
  /\ fst (log_exception (P := cpython) "%d" [PyStr "x"] None [] (handling configured))
     = Raise (TypeError "%d format: a number is required, not str")
  /\ journal (snd (log_exception (P := cpython) "%d" [PyStr "x"] None []
                     (handling configured)))
     = [mkCall CRITICAL "%d" [PyStr "x"] []]
  /\ head (split_nl
             (read_file "/log"
                (env (snd (log_exception (P := cpython) "%d" [PyStr "x"] None []
                             (handling configured))))))
     = Some "Exception in logging module:"
  /\ length (split_nl (format_exc (P := cpython) (Some boom))) = 5.
Proof. repeat split; vm_compute; reflexivity. Qed.

(** [log_exception("failed")] with no exception being handled. *)
Lemma log_exception_without_exception_witness :
  installed "/log" configured
  /\ exc_info (env configured) = None
  /\ fst (log_exception (P := cpython) "failed" [] None [] configured) = Ok tt
  /\ journal (snd (log_exception (P := cpython) "failed" [] None [] configured))
     = [mkCall CRITICAL "failed" [] []; line_call CRITICAL "NoneType: None";
        line_call CRITICAL ""]
  /\ read_file "/log"
       (env (snd (log_exception (P := cpython) "failed" [] None [] configured)))
     = "2015-06-01 12:00:00,000 [CRITICAL] (MainThread) failed" +:+ nl
       +:+ "2015-06-01 12:00:01,000 [CRITICAL] (MainThread) NoneType: None" +:+ nl
       +:+ "2015-06-01 12:00:02,000 [CRITICAL] (MainThread) " +:+ nl.
Proof.
  split; [reflexivity|]. split; [reflexivity|].
  destruct (log_exception_without_exception (P := cpython) "/log" configured
              "failed" None eq_refl eq_refl) as ((w' & Hrun & Hj & Hfile & _) & _).
  rewrite Hrun. cbn [fst snd]. split; [reflexivity|].
  split; [rewrite Hj; reflexivity|].
  rewrite (Hfile eq_refl eq_refl). vm_compute. reflexivity.
Defined.

(** While [boom] is handled: the split of the traceback text, the calls of
    [log_exception("failed")], and what [handleError] writes. *)
Lemma trailing_empty_record_witness :
  split_nl (format_exc (P := cpython) (Some boom))
  = ["Traceback (most recent call last):"; frame_top; frame_code;
     "ValueError: boom"; ""]
  /\ journal (snd (log_exception (P := cpython) "failed" [] None []
                     (handling configured)))
     = [mkCall CRITICAL "failed" [] [];
        line_call CRITICAL "Traceback (most recent call last):";
        line_call CRITICAL frame_top; line_call CRITICAL frame_code;
        line_call CRITICAL "ValueError: boom"; line_call CRITICAL ""]
  /\ fs (snd (snd (handleError (P := cpython) record0 (sink "/log", handling_env))))
       !! "/log" = Some boom_report.
Proof.
  destruct (trailing_empty_record (P := cpython) (Some boom))
    as (Hsplit & _ & Hlog & Hwrite).
  split; [rewrite Hsplit; vm_compute; reflexivity|].
  split.
  - specialize (Hlog "/log" (handling configured) "failed" [] None [] eq_refl eq_refl).
    cbv zeta in Hlog. revert Hlog.
    destruct (logging_log (P := cpython) _ _ _ _ _) as [[[]|x] w1] eqn:E; intros Hlog.
    + destruct Hlog as (w' & Hrun & Hj). rewrite Hrun. cbn [snd]. rewrite Hj.
      vm_compute. reflexivity.
    + vm_compute in E. discriminate E.
  - destruct (Hwrite record0 (sink "/log") handling_env "/log" "" eq_refl eq_refl)
      as (r & Hrun).
    rewrite Hrun. vm_compute. reflexivity.
Defined.

(** [log_exception("failed", colour="red")] while [boom] is handled: the
    logging call for the message raises on the unexpected keyword, and no
    call with an empty message follows. *)
Lemma trailing_empty_record_counterexample :
  installed "/log" (handling configured)
  /\ fst (log_exception (P := cpython) "failed" [] None [("colour", PyStr "red")]
            (handling configured))
     = Raise (TypeError "_log() got an unexpected keyword argument 'colour'")
  /\ journal (snd (log_exception (P := cpython) "failed" [] None
                     [("colour", PyStr "red")] (handling configured)))
     = [mkCall CRITICAL "failed" [] [("colour", PyStr "red")]]
  /\ fs (env (snd (log_exception (P := cpython) "failed" [] None
                     [("colour", PyStr "red")] (handling configured))))
       !! "/log" = Some "".
Proof. repeat split; vm_compute; reflexivity. Qed.

(** A line full of percent signs, logged as a traceback line is. *)
Lemma traceback_lines_logged_verbatim_witness :
  installed "/log" configured
  /\ exists w',
       logging_log (P := cpython) ERROR "100% of %d %s %(x)" [] [] configured
       = (Ok tt, w')
       /\ fs (env w') !! "/log"
          = Some ("2015-06-01 12:00:00,000 [ERROR] (MainThread) 100% of %d %s %(x)"
                  +:+ nl).
Proof.
  split; [reflexivity|].
  destruct (traceback_lines_logged_verbatim (P := cpython) "/log" configured
              "failed" [] None [] eq_refl) as (_ & _ & _ & Hline).
  destruct (Hline ERROR "100% of %d %s %(x)") as (w' & Hrun & _).
  exists w'. split; [exact Hrun|].
  vm_compute in Hrun. injection Hrun as Hw'. subst w'. vm_compute. reflexivity.
Defined.

(** [init_logging("/log")] at start, then a failing [log_exception]. *)
Lemma one_sink_installed_and_kept_witness :
  unconfigured start
  /\ root_handlers configured = [sink "/log"]
  /\ root_handlers
       (snd (log_exception (P := cpython) "%d" [PyStr "x"] None [] configured))
     = [sink "/log"].
Proof.
  split; [reflexivity|].
  destruct (one_sink_installed_and_kept (P := cpython) "/log" None start eq_refl)
    as (w1 & h & Hrun & Hh & -> & _ & _ & _ & Hkept).
  assert (Hw1 : w1 = configured) by (unfold configured; now rewrite Hrun).
  subst w1. split; [exact Hh|].
  destruct (Hkept configured Hh) as (_ & Hexc).
  exact (proj1 (Hexc "%d" [PyStr "x"] None [])).
Defined.

Lemma init_logging_format_and_level_witness :
  unconfigured start
  /\ root_level configured = 10%Z
  /\ map formatter (root_handlers configured)
     = [Some "%(asctime)s [%(levelname)s] (%(threadName)s) %(message)s"]
  /\ Formatter_format (P := cpython)
       "%(asctime)s [%(levelname)s] (%(threadName)s) %(message)s" record0
     = Ok "2015-06-01 12:00:00,000 [CRITICAL] (MainThread) up".
Proof.
  split; [reflexivity|].
  destruct (init_logging_format_and_level (P := cpython) "/log" None start eq_refl)
    as (w1 & Hrun & Hfmt & Hlvl & _ & _ & Hline).
  assert (Hw1 : w1 = configured) by (unfold configured; now rewrite Hrun).
  subst w1. split; [exact Hlvl|]. split; [exact Hfmt|].
  rewrite (Hline record0 "up" eq_refl eq_refl eq_refl). vm_compute. reflexivity.
Defined.

(** Threshold [DEBUG]: ["hello"] at [INFO] is written, at level 5 it is
    not. *)
Lemma threshold_admits_and_drops_witness :
  unconfigured start
  /\ manager_disable start = 0%Z
  /\ fs (env (snd (logging_log (P := cpython) INFO "hello" [] [] configured)))
       !! "/log"
     = Some ("2015-06-01 12:00:00,000 [INFO] (MainThread) hello" +:+ nl)
  /\ env (snd (logging_log (P := cpython) 5 "hello" [] [] configured))
     = env configured.
Proof.
  split; [reflexivity|]. split; [reflexivity|].
  destruct (threshold_admits_and_drops (P := cpython) "/log" None start
              eq_refl eq_refl) as (w1 & Hrun & Hall).
  assert (Hw1 : w1 = configured) by (unfold configured; now rewrite Hrun).
  subst w1. split.
  - destruct (proj1 (Hall INFO "hello")) as (w2 & Hlog & _);
      [unfold INFO; lia | unfold INFO, DEBUG; lia |].
    rewrite Hlog. vm_compute in Hlog. injection Hlog as Hw2. subst w2.
    vm_compute. reflexivity.
  - destruct (proj2 (Hall 5%Z "hello") ltac:(unfold DEBUG; lia) [] [])
      as (w2 & Hlog & Henv).
    rewrite Hlog. exact Henv.
Defined.

(** A message of two lines logged at [CRITICAL] under the threshold
    [DEBUG] adds two lines to the log, neither of which holds the message;
    and under the threshold 0 a message logged at severity 0 adds
    nothing. *)
Lemma threshold_admits_and_drops_counterexample :
  (DEBUG <= CRITICAL)%Z
  /\ split_nl
       (read_file "/log"
          (env (snd (logging_log (P := cpython) CRITICAL ("a" +:+ nl +:+ "b") [] []
                       configured))))
     = ["2015-06-01 12:00:00,000 [CRITICAL] (MainThread) a"; "b"; ""]
  /\ (0 <= 0)%Z
  /\ read_file "/log"
       (env (snd (logging_log (P := cpython) 0 "m" [] []
                    (snd (init_logging "/log" (Some 0%Z) start)))))
     = "".
Proof. repeat split; vm_compute; first [reflexivity | discriminate]. Qed.


Lemma length_filler (n : nat) : String.length (filler n) = n.
Proof. induction n as [|n IH]; cbn; [reflexivity | now rewrite IH]. Qed.


Lemma read_full :
  read_file "/log" (env full) = filler (Z.to_nat LOG_MAX_SIZE).
Proof.
  unfold full. rewrite init_logging_fresh by reflexivity.
  cbn [snd env]. rewrite read_file_set_fs.
  unfold read_file. cbn [fs set_fs]. now rewrite lookup_singleton_eq.
Qed.

(** One more record on the full log: it is added at the end, the file is
    larger than the limit, and there is no backup. *)
Lemma log_file_grows_without_rotation_witness :
  installed "/log" full
  /\ isEnabledFor CRITICAL full = true
  /\ (0 <= CRITICAL)%Z
  /\ Z.of_nat (String.length (read_file "/log" (env full))) = LOG_MAX_SIZE
  /\ exists w',
       logging_log (P := cpython) CRITICAL "one more" [] [] full = (Ok tt, w')
       /\ (Z.of_nat (String.length (read_file "/log" (env w'))) > LOG_MAX_SIZE)%Z
       /\ fs (env w') !! "/log.1" = None.
Proof.
  assert (Hi : installed "/log" full) by reflexivity.
  assert (He : isEnabledFor CRITICAL full = true) by reflexivity.
  assert (Hl : (0 <= CRITICAL)%Z) by (unfold CRITICAL; lia).
  assert (Hsize : Z.of_nat (String.length (read_file "/log" (env full))) = LOG_MAX_SIZE).
  { rewrite read_full, length_filler. apply Z2Nat.id. unfold LOG_MAX_SIZE. lia. }
  do 4 (split; [assumption|]).
  destruct (log_file_grows_without_rotation (P := cpython) "/log" full CRITICAL
              "one more" Hi He Hl)
    as (_ & _ & _ & _ & w' & Hrun & _ & Hfs & Hlen).
  exists w'. split; [exact Hrun|]. split; [lia|].
  rewrite Hfs. rewrite lookup_insert_ne by discriminate.
  unfold full. rewrite init_logging_fresh by reflexivity.
  cbn [snd env fs set_fs]. rewrite lookup_insert_ne by discriminate.
  now rewrite lookup_singleton_ne by discriminate.
Defined.

(** [init_logging("/other", level=ERROR)] after [init_logging("/log")]. *)
Lemma init_logging_again_changes_nothing_witness :
  root_handlers configured <> []
  /\ root_handlers (snd (init_logging "/other" (Some ERROR) configured))
     = [sink "/log"]
  /\ root_level (snd (init_logging "/other" (Some ERROR) configured)) = DEBUG.
Proof.
  assert (Hc : root_handlers configured <> []) by discriminate.
  split; [exact Hc|].
  destruct (init_logging_again_changes_nothing "/other" (Some ERROR) configured Hc)
    as (w' & Hrun & Hh & Hl & _).
  rewrite Hrun. cbn [snd]. now rewrite Hh, Hl.
Defined.

(** [init_logging("/log", level=ERROR)] once ["/log"] holds a record. *)
Lemma init_logging_keeps_log_content_witness :
  init_logging "/log" (Some ERROR)
    (snd (logging_log (P := cpython) CRITICAL "up" [] [] configured))
  = (Ok tt,
     snd (init_logging "/log" (Some ERROR)
            (snd (logging_log (P := cpython) CRITICAL "up" [] [] configured))))
  /\ fs (env (snd (init_logging "/log" (Some ERROR)
                     (snd (logging_log (P := cpython) CRITICAL "up" [] []
                             configured)))))
       !! "/log"
     = Some ("2015-06-01 12:00:00,000 [CRITICAL] (MainThread) up" +:+ nl).
Proof.
  assert (Hrun : init_logging "/log" (Some ERROR)
                   (snd (logging_log (P := cpython) CRITICAL "up" [] [] configured))
                 = (Ok tt,
                    snd (init_logging "/log" (Some ERROR)
                           (snd (logging_log (P := cpython) CRITICAL "up" [] []
                                   configured)))))
    by (vm_compute; reflexivity).
  split; [exact Hrun|].
  destruct (init_logging_keeps_log_content "/log" (Some ERROR) _ _ Hrun)
    as (Hfile & _).
  rewrite Hfile. vm_compute. reflexivity.
Defined.

(** [log_exception("%d", "x", level=5)] under the threshold [DEBUG]. *)
Lemma log_exception_below_threshold_witness :
  installed "/log" configured
  /\ isEnabledFor (level_or_critical (Some 5%Z)) configured = false
  /\ fst (log_exception (P := cpython) "%d" [PyStr "x"] (Some 5%Z) [] configured)
     = Ok tt
  /\ env (snd (log_exception (P := cpython) "%d" [PyStr "x"] (Some 5%Z) []
                 configured))
     = env configured.
Proof.
  split; [reflexivity|]. split; [reflexivity|].
  destruct (log_exception_below_threshold (P := cpython) "/log" configured "%d"
              [PyStr "x"] (Some 5%Z) eq_refl eq_refl) as (w' & Hrun & Henv & _).
  rewrite Hrun. split; [reflexivity | exact Henv].
Defined.

(** [log_exception("%d", "x")] while [boom] is handled raises a
    [TypeError], and [boom] is still the exception being handled. *)
Lemma log_exception_keeps_exception_and_level_witness :
  installed "/log" (handling configured)
  /\ fst (log_exception (P := cpython) "%d" [PyStr "x"] None [] (handling configured))
     = Raise (TypeError "%d format: a number is required, not str")
  /\ exc_info (env (snd (log_exception (P := cpython) "%d" [PyStr "x"] None []
                           (handling configured))))
     = Some boom
  /\ root_level (snd (log_exception (P := cpython) "%d" [PyStr "x"] None []
                        (handling configured)))
     = DEBUG.
Proof.
  split; [reflexivity|]. split; [vm_compute; reflexivity|].
  destruct (log_exception_keeps_exception_and_level (P := cpython) "/log"
              (handling configured) "%d" [PyStr "x"] None [] eq_refl)
    as (Hexc & Hlvl & _).
  split; [rewrite Hexc | rewrite Hlvl]; reflexivity.
Defined.

(** One more [log_exception] on the log file that has reached the size
    limit. *)
Lemma log_exception_only_appends_witness :
  installed "/log" full
  /\ exists suffix,
       read_file "/log"
         (env (snd (log_exception (P := cpython) "failed" [] None [] full)))
       = filler (Z.to_nat LOG_MAX_SIZE) +:+ suffix.
Proof.
  split; [reflexivity|].
  destruct (log_exception_only_appends (P := cpython) "/log" full "failed" [] None []
              eq_refl) as (suffix & Hs).
  exists suffix. rewrite Hs. rewrite read_full. reflexivity.
Defined.

(** [log_exception("%d", "x")] at start, then [init_logging("/log")]. *)
Lemma log_exception_before_init_logging_witness :
  unconfigured start
  /\ fst (log_exception (P := cpython) "%d" [PyStr "x"] None [] start) = Ok tt
  /\ root_handlers
       (snd (init_logging "/log" None
               (snd (log_exception (P := cpython) "%d" [PyStr "x"] None [] start))))
     = [console]
  /\ root_level
       (snd (init_logging "/log" None
               (snd (log_exception (P := cpython) "%d" [PyStr "x"] None [] start))))
     = WARNING.
Proof.
  split; [reflexivity|].
  destruct (log_exception_before_init_logging (P := cpython) start "%d" [PyStr "x"]
              None [] eq_refl) as (_ & _ & _ & Hok & Hinit).
  split; [exact (Hok eq_refl)|].
  destruct (Hinit "/log" None) as (w2 & Hrun & Hh & Hl).
  rewrite Hrun. cbn [snd]. split; [exact Hh | exact Hl].
Defined.

End Run.
